(** * ChunkLoader: chunked, gzip-compressed line storage for the Buffee viewer

    A shallow embedding of [src/extensions/chunkloader.js] and the
    properties of its codec, window manager, ingestion pipeline and
    session lifecycle.

    JavaScript numbers that hold line and chunk indices are modelled as
    [Z]; arrays as [list]; strings as [string]; the closure variables of
    [VbufChunkLoader] and the hosting viewer's objects as records that are
    threaded through a state-and-exception monad. *)

From Stdlib Require Import ZArith String Ascii List Lia.
From Stdlib.Strings Require Import Byte.
From stdpp Require Import base list strings.

Local Open Scope string_scope.
Local Open Scope list_scope.
Local Open Scope Z_scope.

(** ** JavaScript primitives used by the extension *)

Module JS.

(** ['\n'] *)
Definition newline : ascii := "010"%char.

(** [Array.prototype.join(sep)]. *)
Fixpoint join (sep : string) (lines : list string) : string :=
  match lines with
  | [] => ""
  | l :: rest =>
      match rest with
      | [] => l
      | _ :: _ => l +:+ sep +:+ join sep rest
      end
  end.

(** [String.prototype.split(c)] for a one-character separator: the
    result always has at least one element. *)
Fixpoint split (c : ascii) (text : string) : list string :=
  match text with
  | EmptyString => [""]
  | String a rest =>
      if Ascii.eqb a c then "" :: split c rest
      else match split c rest with
           | [] => [String a ""]
           | h :: t => String a h :: t
           end
  end.

(** [Array.prototype.slice(begin, end)]: negative positions count from
    the end of the array, and both positions are clamped to it. *)
Definition clamp {A} (l : list A) (k : Z) : Z :=
  if k <? 0 then Z.max (Z.of_nat (length l) + k) 0
  else Z.min k (Z.of_nat (length l)).

Definition slice {A} (l : list A) (b e : Z) : list A :=
  let from := clamp l b in
  let to := clamp l e in
  take (Z.to_nat (to - from)) (drop (Z.to_nat from) l).

(** [Array.prototype.slice(begin)]. *)
Definition slice_from {A} (l : list A) (b : Z) : list A :=
  drop (Z.to_nat (clamp l b)) l.

(** [array[k]]: [None] stands for [undefined]. *)
Definition index {A} (l : list A) (k : Z) : option A :=
  if k <? 0 then None else l !! Z.to_nat k.

(** [array[k] || ''] on an array of strings. *)
Definition index_or_empty (l : list string) (k : Z) : string :=
  default "" (index l k).

(** [Array(n).fill(x)] for an integer [n >= 0]. *)
Definition fill {A} (n : Z) (x : A) : list A := replicate (Z.to_nat n) x.

(** [Math.floor(a / b)] on integers. *)
Definition floor_div (a b : Z) : Z := a / b.

(** [a % b]: the remainder takes the sign of the dividend. *)
Definition remainder (a b : Z) : Z := Z.rem a b.

Definition len {A} (l : list A) : Z := Z.of_nat (length l).

End JS.

(** ** The platform's text encoding and compression streams

    [TextEncoder], [TextDecoder], [CompressionStream('gzip')] and
    [DecompressionStream('gzip')] belong to the browser, not to the
    repository: they are an interface here. *)

Class Platform := {
  textEncoder_encode : string → list Byte.byte;
  textDecoder_decode : list Byte.byte → string;
  gzip : list Byte.byte → list Byte.byte;
  gunzip : list Byte.byte → list Byte.byte
}.

(** The streams and the text codec give back the text they were fed. *)
Class Lossless (P : Platform) : Prop :=
  lossless : ∀ text : string,
    textDecoder_decode (gunzip (gzip (textEncoder_encode text))) = text.

(** A platform that stores the encoded text as it is. *)
Definition stored : Platform := {|
  textEncoder_encode := list_byte_of_string;
  textDecoder_decode := string_of_list_byte;
  gzip := id;
  gunzip := id
|}.

(** ** Codec: the pure part of [compressChunk] and [decompressChunk] *)

Section Codec.
Context {P : Platform}.

(** Lines 46-71 of [compressChunk]: join, encode, gzip, drain. *)
Definition compress (lines : list string) : list Byte.byte :=
  let text := JS.join (String JS.newline "") lines in
  let data := textEncoder_encode text in
  gzip data.

(** Lines 86-112 of [decompressChunk]: gunzip, drain, decode, split. *)
Definition decompress (compressed : list Byte.byte) : list string :=
  let result := gunzip compressed in
  let text := textDecoder_decode result in
  JS.split JS.newline text.

End Codec.

Definition no_newline (line : string) : Prop :=
  JS.newline ∉ list_ascii_of_string line.

(** ** Data model *)

(** [vbuf.editMode]. *)
Inductive EditMode := write | navigate.

(** Which implementation is installed behind [Model.lastIndex],
    [Viewport.lines] and [Model.appendLines]: the viewer's own or the
    chunked one that [activate] puts in its place. *)
Inductive LineSource := Normal | Chunked.

(** The closure variables of [VbufChunkLoader] (lines 30-37). *)
Record Session := {
  enabled : bool;
  chunks : list (list Byte.byte);
  chunkSize : Z;
  totalLines : Z;
  buffer : list string;
  currentChunkIndex : Z;
  prevBuffer : list string;
  nextBuffer : list string
}.

(** What the extension reads and writes of the hosting viewer. [renders]
    counts the calls of the viewer's [render]. *)
Record Host := {
  Viewport_start : Z;
  Viewport_size : Z;
  Model_lines : list string;
  editMode : EditMode;
  Model_lastIndex : LineSource;
  Viewport_lines : LineSource;
  Model_appendLines : LineSource;
  renders : nat
}.

(** A suspended [loadChunks] call: which [await] it is parked on, for
    which target chunk, and the compressed buffer that the awaited
    [decompressChunk] call picked up from [chunks] when it was called
    ([None] is [undefined]). *)
Inductive Reload :=
  | AwaitCurrent (startChunkIndex : Z) (compressed : option (list Byte.byte))
  | AwaitPrevious (startChunkIndex : Z) (compressed : option (list Byte.byte))
  | AwaitNext (startChunkIndex : Z) (compressed : option (list Byte.byte)).

Record World := {
  session : Session;
  host : Host;
  reloads : list Reload
}.

(** The closure as [VbufChunkLoader] creates it. *)
Definition fresh_session : Session := {|
  enabled := false; chunks := []; chunkSize := 50000; totalLines := 0;
  buffer := []; currentChunkIndex := -1; prevBuffer := []; nextBuffer := []
|}.

(** *** Field updates *)

Definition set_enabled (v : bool) (s : Session) : Session :=
  {| enabled := v; chunks := chunks s; chunkSize := chunkSize s;
     totalLines := totalLines s; buffer := buffer s;
     currentChunkIndex := currentChunkIndex s;
     prevBuffer := prevBuffer s; nextBuffer := nextBuffer s |}.

Definition set_chunks (v : list (list Byte.byte)) (s : Session) : Session :=
  {| enabled := enabled s; chunks := v; chunkSize := chunkSize s;
     totalLines := totalLines s; buffer := buffer s;
     currentChunkIndex := currentChunkIndex s;
     prevBuffer := prevBuffer s; nextBuffer := nextBuffer s |}.

Definition set_chunkSize (v : Z) (s : Session) : Session :=
  {| enabled := enabled s; chunks := chunks s; chunkSize := v;
     totalLines := totalLines s; buffer := buffer s;
     currentChunkIndex := currentChunkIndex s;
     prevBuffer := prevBuffer s; nextBuffer := nextBuffer s |}.

Definition set_totalLines (v : Z) (s : Session) : Session :=
  {| enabled := enabled s; chunks := chunks s; chunkSize := chunkSize s;
     totalLines := v; buffer := buffer s;
     currentChunkIndex := currentChunkIndex s;
     prevBuffer := prevBuffer s; nextBuffer := nextBuffer s |}.

Definition set_buffer (v : list string) (s : Session) : Session :=
  {| enabled := enabled s; chunks := chunks s; chunkSize := chunkSize s;
     totalLines := totalLines s; buffer := v;
     currentChunkIndex := currentChunkIndex s;
     prevBuffer := prevBuffer s; nextBuffer := nextBuffer s |}.

Definition set_currentChunkIndex (v : Z) (s : Session) : Session :=
  {| enabled := enabled s; chunks := chunks s; chunkSize := chunkSize s;
     totalLines := totalLines s; buffer := buffer s;
     currentChunkIndex := v;
     prevBuffer := prevBuffer s; nextBuffer := nextBuffer s |}.

Definition set_prevBuffer (v : list string) (s : Session) : Session :=
  {| enabled := enabled s; chunks := chunks s; chunkSize := chunkSize s;
     totalLines := totalLines s; buffer := buffer s;
     currentChunkIndex := currentChunkIndex s;
     prevBuffer := v; nextBuffer := nextBuffer s |}.

Definition set_nextBuffer (v : list string) (s : Session) : Session :=
  {| enabled := enabled s; chunks := chunks s; chunkSize := chunkSize s;
     totalLines := totalLines s; buffer := buffer s;
     currentChunkIndex := currentChunkIndex s;
     prevBuffer := prevBuffer s; nextBuffer := v |}.

Definition set_Viewport (start size : Z) (h : Host) : Host :=
  {| Viewport_start := start; Viewport_size := size;
     Model_lines := Model_lines h; editMode := editMode h;
     Model_lastIndex := Model_lastIndex h; Viewport_lines := Viewport_lines h;
     Model_appendLines := Model_appendLines h; renders := renders h |}.

Definition set_Model_lines (v : list string) (h : Host) : Host :=
  {| Viewport_start := Viewport_start h; Viewport_size := Viewport_size h;
     Model_lines := v; editMode := editMode h;
     Model_lastIndex := Model_lastIndex h; Viewport_lines := Viewport_lines h;
     Model_appendLines := Model_appendLines h; renders := renders h |}.

Definition set_editMode (v : EditMode) (h : Host) : Host :=
  {| Viewport_start := Viewport_start h; Viewport_size := Viewport_size h;
     Model_lines := Model_lines h; editMode := v;
     Model_lastIndex := Model_lastIndex h; Viewport_lines := Viewport_lines h;
     Model_appendLines := Model_appendLines h; renders := renders h |}.

Definition set_sources (v : LineSource) (h : Host) : Host :=
  {| Viewport_start := Viewport_start h; Viewport_size := Viewport_size h;
     Model_lines := Model_lines h; editMode := editMode h;
     Model_lastIndex := v; Viewport_lines := v;
     Model_appendLines := v; renders := renders h |}.

Definition count_render (h : Host) : Host :=
  {| Viewport_start := Viewport_start h; Viewport_size := Viewport_size h;
     Model_lines := Model_lines h; editMode := editMode h;
     Model_lastIndex := Model_lastIndex h; Viewport_lines := Viewport_lines h;
     Model_appendLines := Model_appendLines h; renders := S (renders h) |}.

Definition on_session (f : Session → Session) (w : World) : World :=
  {| session := f (session w); host := host w; reloads := reloads w |}.

Definition on_host (f : Host → Host) (w : World) : World :=
  {| session := session w; host := f (host w); reloads := reloads w |}.

Definition on_reloads (f : list Reload → list Reload) (w : World) : World :=
  {| session := session w; host := host w; reloads := f (reloads w) |}.

(** ** Control: state threading, exceptions and suspended calls *)

Inductive Error :=
  | InvalidConfiguration (viewportSize size : Z)
      (* Error(`Viewport ... can't be larger than chunkSize ...`) *)
  | NotActivated
      (* Error('ChunkLoader is not activated. Call activate() first.') *)
  | TypeError
      (* a stream that is fed a chunk which is not a buffer *)
  | RangeError.
      (* Array(n) for a negative n *)

Inductive Outcome (A : Type) :=
  | Return (a : A)
  | Throw (e : Error)
  | OutOfFuel.
Arguments Return {A} a.
Arguments Throw {A} e.
Arguments OutOfFuel {A}.

Definition M (A : Type) : Type := World → Outcome A * World.

#[global] Instance M_ret : MRet M := λ A a w, (Return a, w).

#[global] Instance M_bind : MBind M := λ A B k m w,
  match m w with
  | (Return a, w') => k a w'
  | (Throw e, w') => (Throw e, w')
  | (OutOfFuel, w') => (OutOfFuel, w')
  end.

Definition throw {A} (e : Error) : M A := λ w, (Throw e, w).
Definition out_of_fuel {A} : M A := λ w, (OutOfFuel, w).
Definition gets {A} (f : World → A) : M A := λ w, (Return (f w), w).
Definition modify (f : World → World) : M unit := λ w, (Return (), f w).

Definition read {A} (f : Session → A) : M A := gets (f ∘ session).
Definition assign (f : Session → Session) : M unit := modify (on_session f).
Definition viewer {A} (f : Host → A) : M A := gets (f ∘ host).

(** Modelled from the spec: the viewer's [render] is not part of the
    extension.  The spec (4.3 step 3 and 6) makes it the repaint
    notification on which the viewer re-queries [resolve].  [render] is
    the notification, counted; the re-query is a [resolve] of its own (or
    [repaint] below), which a run places behind the call that ended with
    [render]: every function of the extension that calls [render] calls
    it as its last statement. *)
Definition render : M unit := modify (on_host count_render).

(** Runs the monadic plumbing of a goal. *)
Ltac run :=
  unfold mbind, M_bind, mret, M_ret, render, viewer, read, assign, gets,
    modify, throw, out_of_fuel;
  cbn.

(** ** The extension's functions *)

Section ChunkLoader.
Context {P : Platform}.

(** [chunks[chunkIndex] = result]: an index below zero names a property
    of the array object, not one of its elements. *)
Definition store_at (cs : list (list Byte.byte)) (chunkIndex : Z)
    (result : list Byte.byte) : list (list Byte.byte) :=
  if chunkIndex <? 0 then cs else <[Z.to_nat chunkIndex := result]> cs.

(** [compressChunk] (lines 45-78). *)
Definition compressChunk (chunkIndex : Z) (lines : list string) : M unit :=
  let result := compress lines in
  cs ← read chunks;
  if chunkIndex <? JS.len cs
  then assign (set_chunks (store_at cs chunkIndex result))
  else assign (set_chunks (cs ++ [result])).

(** [decompressChunk] (lines 84-113) up to its first [await]: line 85
    picks up [chunks[chunkIndex]] when the function is called. *)
Definition decompressChunk_call (chunkIndex : Z)
    : M (option (list Byte.byte)) :=
  cs ← read chunks; mret (JS.index cs chunkIndex).

(** ... and from there on: the decompression stream rejects a chunk that
    is not a buffer, so the pending [reader.read()] rejects and with it
    the call; a buffer is decompressed, decoded and split. *)
Definition decompressChunk_settle (compressed : option (list Byte.byte))
    : M (list string) :=
  match compressed with
  | None => throw TypeError
  | Some bytes => mret (decompress bytes)
  end.

(** [await decompressChunk(chunkIndex)] with nothing running in between. *)
Definition decompressChunk (chunkIndex : Z) : M (list string) :=
  compressed ← decompressChunk_call chunkIndex;
  decompressChunk_settle compressed.

(** *** [loadChunks], the closure of [getChunkedLines] (lines 124-148) *)

(** From its call to the first [await] (lines 125-131). *)
Definition loadChunks (startChunkIndex : Z) : M unit :=
  assign (set_currentChunkIndex startChunkIndex);;
  compressed ← decompressChunk_call startChunkIndex;
  modify (on_reloads (λ rs, rs ++ [AwaitCurrent startChunkIndex compressed])).

(** Lines 140-147. *)
Definition loadChunks_next (startChunkIndex : Z) : M (option Reload) :=
  let nextChunkIndex := startChunkIndex + 1 in
  cs ← read chunks;
  if nextChunkIndex <? JS.len cs then
    compressed ← decompressChunk_call nextChunkIndex;
    mret (Some (AwaitNext startChunkIndex compressed))
  else
    assign (set_nextBuffer []);;
    render;;
    mret None.

(** Lines 133-138, then on to the next chunk. *)
Definition loadChunks_previous (startChunkIndex : Z) : M (option Reload) :=
  let prevChunkIndex := startChunkIndex - 1 in
  cs ← read chunks;
  if (prevChunkIndex >=? 0) && (prevChunkIndex <? JS.len cs) then
    compressed ← decompressChunk_call prevChunkIndex;
    mret (Some (AwaitPrevious startChunkIndex compressed))
  else
    assign (set_prevBuffer []);;
    loadChunks_next startChunkIndex.

(** One awaited decompression settles and [loadChunks] runs on to its
    next [await] (the result is the call as it is suspended again) or
    to its end ([None]). *)
Definition resume (r : Reload) : M (option Reload) :=
  match r with
  | AwaitCurrent startChunkIndex compressed =>
      lines ← decompressChunk_settle compressed;
      assign (set_buffer lines);;
      loadChunks_previous startChunkIndex
  | AwaitPrevious startChunkIndex compressed =>
      lines ← decompressChunk_settle compressed;
      assign (set_prevBuffer lines);;
      loadChunks_next startChunkIndex
  | AwaitNext startChunkIndex compressed =>
      lines ← decompressChunk_settle compressed;
      assign (set_nextBuffer lines);;
      render;;
      mret None
  end.

(** *** [getChunkedLines] (lines 119-171) *)

(** Modelled from the spec: the viewer's [Viewport.end] getter is not
    part of the extension; the spec has [resolve] cover the absolute
    lines [viewportStart, viewportStart + viewportSize), which makes the
    last visible line [start + size - 1]. *)
Definition Viewport_end (h : Host) : Z :=
  Viewport_start h + Viewport_size h - 1.

(** [Array(Viewport.size).fill("...")]. *)
Definition placeholders (size : Z) : M (list string) :=
  if size <? 0 then throw RangeError else mret (JS.fill size "...").

(** The body of the loop of lines 156-169 for the absolute line [i]. *)
Definition line_at (chunkSize startChunkIndex : Z)
    (prevBuffer buffer nextBuffer : list string) (i : Z) : string :=
  let chunkIdx := JS.floor_div i chunkSize in
  let lineInChunk := JS.remainder i chunkSize in
  if (chunkIdx =? startChunkIndex - 1) && (JS.len prevBuffer >? 0) then
    JS.index_or_empty prevBuffer lineInChunk
  else if chunkIdx =? startChunkIndex then
    JS.index_or_empty buffer lineInChunk
  else if (chunkIdx =? startChunkIndex + 1) && (JS.len nextBuffer >? 0) then
    JS.index_or_empty nextBuffer lineInChunk
  else "".

Definition getChunkedLines : M (list string) :=
  start ← viewer Viewport_start;
  chunkSize ← read chunkSize;
  let startChunkIndex := JS.floor_div start chunkSize in
  currentChunkIndex ← read currentChunkIndex;
  if negb (currentChunkIndex =? startChunkIndex) then
    loadChunks startChunkIndex;;
    size ← viewer Viewport_size;
    placeholders size
  else
    last ← viewer Viewport_end;
    prevBuffer ← read prevBuffer;
    buffer ← read buffer;
    nextBuffer ← read nextBuffer;
    mret (line_at chunkSize startChunkIndex prevBuffer buffer nextBuffer
            <$> seqZ start (last - start + 1)).

(** The spec's [resolve(viewportStart, viewportSize)]: the viewer moves
    its viewport and reads [Viewport.lines]. *)
Definition resolve (viewportStart viewportSize : Z) : M (list string) :=
  modify (on_host (set_Viewport viewportStart viewportSize));;
  getChunkedLines.

(** *** [appendChunkedLines] (lines 177-227)

    The function reads [currentChunkIndex] and [buffer] before its first
    [await] only, and no reload writes [totalLines] or [chunks], so a
    call is taken as one step. *)

(** [let chunkLines = []; if (...) chunkLines = await decompressChunk(...)]. *)
Definition chunkLines_of (startChunkIndex : Z) : M (list string) :=
  cs ← read chunks;
  if startChunkIndex <? JS.len cs then decompressChunk startChunkIndex
  else mret [].

(** The [while] loop of lines 194-224; [fuel] bounds its iterations. *)
Fixpoint append_loop (fuel : nat) (startChunkIndex startPosInChunk : Z)
    (remainingLines : list string) : M unit :=
  if JS.len remainingLines =? 0 then mret () else
  match fuel with
  | O => out_of_fuel
  | S fuel' =>
      chunkSize ← read chunkSize;
      let remainingSpaceInChunk := chunkSize - startPosInChunk in
      if JS.len remainingLines <=? remainingSpaceInChunk then
        chunkLines ← chunkLines_of startChunkIndex;
        let chunkLines := chunkLines ++ remainingLines in
        total ← read totalLines;
        assign (set_totalLines (total + JS.len remainingLines));;
        compressChunk startChunkIndex chunkLines
      else
        let linesInChunk := JS.slice remainingLines 0 remainingSpaceInChunk in
        let remainingLines := JS.slice_from remainingLines remainingSpaceInChunk in
        chunkLines ← chunkLines_of startChunkIndex;
        let chunkLines := chunkLines ++ linesInChunk in
        total ← read totalLines;
        assign (set_totalLines (total + JS.len linesInChunk));;
        compressChunk startChunkIndex chunkLines;;
        append_loop fuel' (startChunkIndex + 1) 0 remainingLines
  end.

Definition appendChunkedLines (newLines : list string) (skipRender : bool)
    : M unit :=
  total ← read totalLines;
  chunkSize ← read chunkSize;
  let startChunkIndex := JS.floor_div total chunkSize in
  let startPosInChunk := JS.remainder total chunkSize in
  currentChunkIndex ← read currentChunkIndex;
  '(startChunkIndex, startPosInChunk, remainingLines) ←
    (if startChunkIndex =? currentChunkIndex then
       buffer ← read buffer;
       let remainingSpace := chunkSize - JS.len buffer in
       let linesToCurrentChunk := JS.slice newLines 0 remainingSpace in
       let remainingLines := JS.slice_from newLines remainingSpace in
       assign (set_buffer (buffer ++ linesToCurrentChunk));;
       assign (set_totalLines (total + JS.len linesToCurrentChunk));;
       mret (startChunkIndex + 1, 0, remainingLines)
     else mret (startChunkIndex, startPosInChunk, newLines));
  append_loop (length remainingLines) startChunkIndex startPosInChunk
    remainingLines;;
  if negb skipRender then render else mret ().

(** *** The [ChunkLoader] API (lines 233-361) *)

Definition get_totalLines : M Z := read totalLines.
Definition get_chunkCount : M Z := cs ← read chunks; mret (JS.len cs).

Definition activate (size : Z) : M unit :=
  viewportSize ← viewer Viewport_size;
  if viewportSize >=? size then
    throw (InvalidConfiguration viewportSize size)
  else
    assign (set_enabled true);;
    assign (set_chunkSize size);;
    assign (set_chunks []);;
    assign (set_buffer []);;
    assign (set_totalLines 0);;
    assign (set_currentChunkIndex (-1));;
    assign (set_prevBuffer []);;
    assign (set_nextBuffer []);;
    modify (on_host (set_Model_lines []));;
    modify (on_host (set_editMode navigate));;
    modify (on_host (set_sources Chunked));;
    render.

(** The reset shared by [deactivate] and [clear]. *)
Definition discard : M unit :=
  assign (set_chunks []);;
  assign (set_buffer []);;
  assign (set_totalLines 0);;
  assign (set_currentChunkIndex (-1));;
  assign (set_prevBuffer []);;
  assign (set_nextBuffer []).

Definition deactivate : M unit :=
  assign (set_enabled false);;
  modify (on_host (set_sources Normal));;
  modify (on_host (set_editMode write));;
  discard;;
  render.

(** An [async] function: its throw rejects the promise that the caller
    holds. *)
Definition appendLines (lines : list string) (skipRender : bool) : M unit :=
  on ← read enabled;
  if negb on then throw NotActivated
  else appendChunkedLines lines skipRender.

Definition clear : M unit := discard;; render.

(** *** Scheduling the suspended reloads *)

(** The decompression awaited by the [k]-th suspended reload settles. A
    reload that rejects has no handler: it is dropped. *)
Definition land (k : nat) : M unit := λ w,
  match reloads w !! k with
  | None => (Return (), w)
  | Some r =>
      match resume r w with
      | (Return (Some r'), w') => (Return (), on_reloads (<[k := r']>) w')
      | (_, w') => (Return (), on_reloads (delete k) w')
      end
  end.

(** [loadChunks] runs from one suspended point to its end. *)
Fixpoint run_reload (fuel : nat) (r : Reload) : M unit :=
  match fuel with
  | O => out_of_fuel
  | S fuel' =>
      next ← resume r;
      match next with
      | None => mret ()
      | Some r' => run_reload fuel' r'
      end
  end.

(** The [k]-th suspended reload runs to its end with nothing in between. *)
Definition finish (k : nat) : M unit := λ w,
  match reloads w !! k with
  | None => (Return (), w)
  | Some r =>
      let w := on_reloads (delete k) w in
      match run_reload 3 r w with
      | (OutOfFuel, w') => (OutOfFuel, w')
      | (_, w') => (Return (), w')
      end
  end.

End ChunkLoader.

(** ** Worlds to run the extension in *)

(** A viewer that shows [size] rows of an ordinary document, with the
    extension attached and not activated. *)
Definition viewer_world (size : Z) : World := {|
  session := fresh_session;
  host := {| Viewport_start := 0; Viewport_size := size;
             Model_lines := ["draft"]; editMode := write;
             Model_lastIndex := Normal; Viewport_lines := Normal;
             Model_appendLines := Normal; renders := 0 |};
  reloads := []
|}.

Definition chunkCount (w : World) : Z := JS.len (chunks (session w)).

(** The lines that the stored chunk [k] holds ([[]] where there is none). *)
Definition chunk_lines {P : Platform} (k : Z) (w : World) : list string :=
  match JS.index (chunks (session w)) k with
  | Some bytes => decompress bytes
  | None => []
  end.

(** [ceil(a / b)] for a positive [b]. *)
Definition ceil_div (a b : Z) : Z := - ((- a) / b).

#[global] Instance no_newline_dec (line : string) : Decision (no_newline line).
Proof. unfold no_newline. apply _. Defined.

Definition throws {A} (r : Outcome A * World) : Prop := ∃ e, r.1 = Throw e.

(** Every line that the buffer [b] holds, taken as the lines of chunk
    [k], is a line of the document. *)
Definition held_within (w : World) (k : Z) (b : list string) : Prop :=
  ∀ j, is_Some (JS.index b j) →
       k * chunkSize (session w) + j < totalLines (session w).

(** The three resident buffers hold lines of the document only. *)
Definition within_document (w : World) : Prop :=
  held_within w (currentChunkIndex (session w) - 1) (prevBuffer (session w))
  ∧ held_within w (currentChunkIndex (session w)) (buffer (session w))
  ∧ held_within w (currentChunkIndex (session w) + 1) (nextBuffer (session w)).

(** The three buffers are the ones a reload for chunk [k] leaves. *)
Definition window_of {P : Platform} (k : Z) (w : World) : Prop :=
  buffer (session w) = chunk_lines k w
  ∧ prevBuffer (session w)
    = (if (k - 1 >=? 0) && (k - 1 <? chunkCount w)
       then chunk_lines (k - 1) w else [])
  ∧ nextBuffer (session w)
    = (if k + 1 <? chunkCount w then chunk_lines (k + 1) w else []).

(** What a step of a reload leaves alone: the store, the chunk size, the
    current chunk index and the suspended reloads. *)
Definition same_store (w w' : World) : Prop :=
  chunks (session w') = chunks (session w)
  ∧ chunkSize (session w') = chunkSize (session w)
  ∧ currentChunkIndex (session w') = currentChunkIndex (session w)
  ∧ reloads w' = reloads w.

(** The number of [await]s that a suspended reload has before it. *)
Definition awaits (r : Reload) : nat :=
  match r with
  | AwaitCurrent _ _ => 3
  | AwaitPrevious _ _ => 2
  | AwaitNext _ _ => 1
  end.

(** The lines of the document [doc] that chunk [i] owns: those from
    [i * chunkSize] up to [(i + 1) * chunkSize] or the end of [doc]. *)
Definition owned_range (chunkSize : Z) (doc : list string) (i : Z)
    : list string :=
  take (Z.to_nat chunkSize) (drop (Z.to_nat (i * chunkSize)) doc).

(** The store holds the document [doc]: the counter is its length, there
    are as many chunks as it takes, and each chunk decompresses to the
    lines it owns. *)
Definition store_holds {P : Platform} (doc : list string) (w : World) : Prop :=
  totalLines (session w) = JS.len doc
  ∧ chunkCount w = ceil_div (JS.len doc) (chunkSize (session w))
  ∧ ∀ i, 0 <= i < chunkCount w →
         chunk_lines i w = owned_range (chunkSize (session w)) doc i.

(** *** Runs on the platform that stores the text as it is *)

(** A session of chunk size 5 that has just been activated. *)
Definition empty_store_world : World := (activate 5 (viewer_world 3)).2.

(** 50001 lines in chunks of 50000, the window loaded on chunk 0. *)
Definition boundary_world : World :=
  ((activate 50000;;
    @appendLines stored (JS.fill 50000 "x" ++ ["line 50000"]) true;;
    resolve 0 11;;
    @finish stored 0) (viewer_world 11)).2.

(** Seven lines in chunks of 2, the window loaded on chunk 0. *)
Definition seven_lines_world : World :=
  ((activate 2;;
    @appendLines stored ["a"; "b"; "c"; "d"; "e"; "f"; "g"] true;;
    resolve 0 1;;
    @finish stored 0) (viewer_world 1)).2.

(** Two jumps, to chunk 1 and then to chunk 2, before any decompression
    settles; the reload for chunk 2 runs first, the one for chunk 1 last. *)
Definition stale_run : Outcome unit * World :=
  (resolve 2 1;; resolve 4 1;; @finish stored 1;; @finish stored 0)
    seven_lines_world.

(** The same two jumps; the reload for chunk 1 takes its first step, the
    reload for chunk 2 runs to its end, the reload for chunk 1 takes its
    other steps. *)
Definition mixed_run : Outcome unit * World :=
  (resolve 2 1;; resolve 4 1;; @land stored 0;; @finish stored 1;;
   @finish stored 0) seven_lines_world.

(** A jump to chunk 2; the decompression of chunk 2 settles while those
    of its neighbours are still awaited; the viewer repaints. *)
Definition half_loaded_run : Outcome (list string) * World :=
  (resolve 4 1;; @land stored 0;; resolve 4 1) seven_lines_world.

(** Two lines are appended and shown, then a third is appended. *)
Definition resident_tail_run : Outcome (list string) * World :=
  (activate 5;;
   @appendLines stored ["a"; "b"] false;;
   resolve 0 3;;
   @finish stored 0;;
   @appendLines stored ["c"] false;;
   @decompressChunk stored 0) (viewer_world 3).

(** Line ["b"] is appended while chunk 0 is the resident current buffer;
    the viewer then scrolls to chunk 1, back to chunk 0, and shows line 1. *)
Definition lost_line_run : Outcome (list string) * World :=
  (activate 2;;
   @appendLines stored ["a"] true;;
   resolve 0 1;; @finish stored 0;;
   @appendLines stored ["b"] true;;
   @appendLines stored ["c"; "d"] true;;
   resolve 2 1;; @finish stored 0;;
   resolve 0 1;; @finish stored 0;;
   resolve 1 1) (viewer_world 1).

(** The viewer paints the empty session, then two lines are appended. *)
Definition first_append_run : Outcome unit * World :=
  (activate 5;;
   resolve 0 3;;
   @appendLines stored ["a"; "b"] false) (viewer_world 3).

(** ** The rest of the API, and a caller *)

(** The accessors [ChunkLoader.enabled] (line 238) and
    [ChunkLoader.compressedSize] (lines 256-258). *)
Definition get_enabled : M bool := read enabled.

Definition get_compressedSize : M Z :=
  cs ← read chunks;
  mret (foldl (λ acc chunk, acc + JS.len chunk) 0 cs).

(** Modelled from the spec: what the viewer does on a repaint
    notification (spec 4.3 step 3 and 6): it re-queries [resolve] with
    the viewport it has, which reads [Viewport.lines] -- the getter
    [getChunkedLines] while the chunked source is installed, the viewer's
    own otherwise. *)
Definition repaint : M unit :=
  source ← viewer Viewport_lines;
  match source with
  | Chunked => getChunkedLines;; mret ()
  | Normal => mret ()
  end.

(** A caller that ingests a file batch by batch, as in the example of
    lines 17-18: [await ChunkLoader.appendLines(batch, skipRender)] for
    each batch in turn; the viewer repaints behind every call that
    rendered. *)
Fixpoint load {P : Platform} (batches : list (list string))
    (skipRender : bool) : M unit :=
  match batches with
  | [] => mret ()
  | batch :: rest =>
      appendLines batch skipRender;;
      (if negb skipRender then repaint else mret ());;
      load rest skipRender
  end.

(** The decompression awaited by the first suspended reload settles, [n]
    times over. *)
Fixpoint lands {P : Platform} (n : nat) : M unit :=
  match n with
  | O => mret ()
  | S n' => land 0;; lands n'
  end.

(** No reload is in flight, or one that is past its first [await]. *)
Definition past_current (w : World) : Prop :=
  reloads w = []
  ∨ (∃ k c, reloads w = [AwaitPrevious k c])
  ∨ (∃ k c, reloads w = [AwaitNext k c]).

(** The platform gives the text [text] back: encoded, compressed,
    decompressed and decoded, it is [text] again. *)
Definition lossless_at (P : Platform) (text : string) : Prop :=
  textDecoder_decode (gunzip (gzip (textEncoder_encode text))) = text.

(** The line [i] of the document [doc] as the viewer shows it: the empty
    string where the document has no such line. *)
Definition document_line (doc : list string) (i : Z) : string :=
  default "" (JS.index doc i).

(** What an append that does not take the resident buffer leaves alone. *)
Definition same_window (w w' : World) : Prop :=
  buffer (session w') = buffer (session w)
  ∧ prevBuffer (session w') = prevBuffer (session w)
  ∧ nextBuffer (session w') = nextBuffer (session w)
  ∧ currentChunkIndex (session w') = currentChunkIndex (session w)
  ∧ chunkSize (session w') = chunkSize (session w)
  ∧ enabled (session w') = enabled (session w)
  ∧ reloads w' = reloads w.

(** What reading leaves alone: the store and its counters. *)
Definition same_content (w w' : World) : Prop :=
  chunks (session w') = chunks (session w)
  ∧ totalLines (session w') = totalLines (session w)
  ∧ chunkSize (session w') = chunkSize (session w)
  ∧ enabled (session w') = enabled (session w).

(** Seven lines in chunks of 2, the window on chunk 0 and a reload for
    chunk 1 in flight. *)
Definition reloading_world : World :=
  (resolve 2 1 seven_lines_world).2.

(** The observability accessors answer the same in [w] and in [w']. *)
Definition same_answers (w w' : World) : Prop :=
  (get_totalLines w').1 = (get_totalLines w).1
  ∧ (get_chunkCount w').1 = (get_chunkCount w).1
  ∧ (get_compressedSize w').1 = (get_compressedSize w).1
  ∧ (get_enabled w').1 = (get_enabled w).1.

(** A session of chunk size 5 that was activated and painted once: the
    store is empty and chunk 0 is the current chunk of the window. *)
Definition painted_world : World := (resolve 0 3 empty_store_world).2.

(** * Properties *)

Lemma stored_lossless : Lossless stored.
Proof. intros text. apply string_of_list_byte_of_string. Qed.

(** *** Splitting a joined text *)

Lemma split_line (line : string) :
  no_newline line → JS.split JS.newline line = [line].
Proof.
  unfold no_newline. induction line as [|a line IH]; simpl; [done|].
  intros Hnl. apply not_elem_of_cons in Hnl as [Ha Hline].
  destruct (Ascii.eqb_spec a JS.newline) as [->|_]; [done|].
  by rewrite IH.
Qed.

Lemma split_app_newline (line rest : string) :
  no_newline line →
  JS.split JS.newline (line +:+ String JS.newline rest)
  = line :: JS.split JS.newline rest.
Proof.
  unfold no_newline. induction line as [|a line IH]; simpl.
  - done.
  - intros Hnl. apply not_elem_of_cons in Hnl as [Ha Hline].
    destruct (Ascii.eqb_spec a JS.newline) as [->|_]; [done|].
    by rewrite IH.
Qed.

Lemma split_join (lines : list string) :
  lines ≠ [] → Forall no_newline lines →
  JS.split JS.newline (JS.join (String JS.newline "") lines) = lines.
Proof.
  induction lines as [|l rest IH]; [done|].
  intros _ Hall. apply Forall_cons in Hall as [Hl Hrest].
  destruct rest as [|l' rest'].
  - simpl. by apply split_line.
  - change (JS.join _ (l :: l' :: rest'))
      with (l +:+ String JS.newline (JS.join (String JS.newline "") (l' :: rest'))).
    rewrite split_app_newline by done. f_equal. by apply IH.
Qed.

Lemma split_nonempty (c : ascii) (text : string) : JS.split c text ≠ [].
Proof.
  destruct text as [|a rest]; simpl; [done|].
  destruct (Ascii.eqb a c); [done|]. by destruct (JS.split c rest).
Qed.

(** ** Codec: the round trip *)

Lemma decompress_compress (P : Platform) (lines : list string) :
  Lossless P → lines ≠ [] → Forall no_newline lines →
  decompress (compress lines) = lines.
Proof.
  intros HP Hne Hnl. unfold decompress, compress.
  rewrite lossless. by apply split_join.
Qed.

(** C1 (as amended): for every non-empty finite sequence of strings whose
    elements contain no newline character, and whose joined text the
    platform's text codec and gzip streams give back unchanged,
    decompressing the result of compressing the sequence yields the
    sequence again.  Nothing is asked of the platform on other texts. *)
Theorem roundtrip_nonempty (P : Platform) (lines : list string) :
  lossless_at P (JS.join (String JS.newline "") lines) →
  lines ≠ [] → Forall no_newline lines →
  decompress (compress lines) = lines.
Proof.
  intros Hback Hne Hnl. unfold decompress, compress.
  unfold lossless_at in Hback. rewrite Hback. by apply split_join.
Qed.

Lemma roundtrip_nonempty_witness :
  lossless_at stored
    (JS.join (String JS.newline "") ["alpha"; ""; "gamma delta"])
  ∧ ["alpha"; ""; "gamma delta"] ≠ []
  ∧ Forall no_newline ["alpha"; ""; "gamma delta"]
  ∧ @decompress stored (@compress stored ["alpha"; ""; "gamma delta"])
    = ["alpha"; ""; "gamma delta"].
Proof.
  assert (Hback : lossless_at stored
            (JS.join (String JS.newline "") ["alpha"; ""; "gamma delta"]))
    by reflexivity.
  assert (Hne : ["alpha"; ""; "gamma delta"] ≠ @nil string) by discriminate.
  assert (Hnl : Forall no_newline ["alpha"; ""; "gamma delta"])
    by (apply (bool_decide_unpack _); vm_compute; exact I).
  split; [exact Hback|]. split; [exact Hne|]. split; [exact Hnl|].
  exact (roundtrip_nonempty stored _ Hback Hne Hnl).
Defined.

(** C1 as stated fails at the empty sequence: joining no lines gives the
    empty text, and splitting the empty text gives one empty line. *)
Lemma roundtrip_empty_fails :
  Forall no_newline []
  ∧ @decompress stored (@compress stored []) = [""]
  ∧ @decompress stored (@compress stored []) ≠ [].
Proof. split; [constructor|]. split; [reflexivity|discriminate]. Qed.

(** On every platform the empty sequence comes back with one line. *)
Lemma decompress_nonempty (P : Platform) (bytes : list Byte.byte) :
  decompress bytes ≠ [].
Proof. apply split_nonempty. Qed.

(** ** Session lifecycle *)

(** C7: [activate(size)] throws its configuration error exactly when the
    viewport's line count is at least [size]; the call is an ordinary
    (synchronous) one, and when it throws the whole world -- chunks,
    buffers, counters, current chunk index, edit mode and the installed
    line sources -- is as it was before the call. *)
Theorem activate_guard (size : Z) (w : World) :
  (throws (activate size w) ↔ Viewport_size (host w) >= size)
  ∧ (Viewport_size (host w) >= size →
     activate size w
     = (Throw (InvalidConfiguration (Viewport_size (host w)) size), w)).
Proof.
  assert (Hthrow : Viewport_size (host w) >= size →
    activate size w
    = (Throw (InvalidConfiguration (Viewport_size (host w)) size), w)).
  { intros Hge. unfold activate. run.
    destruct (Z.geb_spec (Viewport_size (host w)) size); [done|lia]. }
  split; [|exact Hthrow]. split.
  - intros [e He]. revert He. unfold activate. run.
    destruct (Z.geb_spec (Viewport_size (host w)) size); [lia|discriminate].
  - intros Hge. rewrite Hthrow by done. by eexists.
Qed.

Lemma activate_guard_witness :
  Viewport_size (host (viewer_world 10)) >= 5
  ∧ activate 5 (viewer_world 10)
    = (Throw (InvalidConfiguration 10 5), viewer_world 10).
Proof.
  assert (H : Viewport_size (host (viewer_world 10)) >= 5) by (simpl; lia).
  split; [exact H|].
  exact (proj2 (activate_guard 5 (viewer_world 10)) H).
Defined.

(** C9: outside an active session [appendLines] throws the "not
    activated" error, which is not the configuration error, and leaves
    the world (total lines, chunks and all the rest) as it was. *)
Theorem appendLines_not_activated (P : Platform) (lines : list string)
    (skipRender : bool) (w : World) :
  enabled (session w) = false →
  appendLines lines skipRender w = (Throw NotActivated, w)
  ∧ ∀ viewportSize size, NotActivated ≠ InvalidConfiguration viewportSize size.
Proof.
  intros Hoff. split; [|discriminate].
  unfold appendLines. run. by rewrite Hoff.
Qed.

Lemma appendLines_not_activated_witness :
  enabled (session (viewer_world 10)) = false
  ∧ @appendLines stored ["one"; "two"] false (viewer_world 10)
    = (Throw NotActivated, viewer_world 10).
Proof.
  split; [reflexivity|].
  exact (proj1 (appendLines_not_activated stored ["one"; "two"] false
                  (viewer_world 10) eq_refl)).
Defined.

(** ** Chunk store: reading a chunk *)

Lemma index_in_bounds {A} (l : list A) (k : Z) :
  0 <= k < JS.len l → is_Some (JS.index l k).
Proof.
  unfold JS.index, JS.len. intros Hk.
  destruct (Z.ltb_spec k 0); [lia|]. apply lookup_lt_is_Some. lia.
Qed.

Lemma index_out_of_bounds {A} (l : list A) (k : Z) :
  k < 0 ∨ JS.len l <= k → JS.index l k = None.
Proof.
  unfold JS.index, JS.len. intros Hk.
  destruct (Z.ltb_spec k 0); [done|]. apply lookup_ge_None. lia.
Qed.

Lemma index_is_Some {A} (l : list A) (k : Z) :
  is_Some (JS.index l k) → 0 <= k < JS.len l.
Proof.
  unfold JS.index, JS.len. destruct (Z.ltb_spec k 0).
  - intros [? ?]. done.
  - intros Hs. apply lookup_lt_is_Some in Hs. lia.
Qed.

(** An index outside the store makes [decompressChunk] reject. *)
Lemma decompressChunk_out_of_bounds (P : Platform) (chunkIndex : Z) (w : World) :
  chunkIndex < 0 ∨ chunkCount w <= chunkIndex →
  decompressChunk chunkIndex w = (Throw TypeError, w).
Proof.
  intros Hk. unfold decompressChunk, decompressChunk_call. run.
  by rewrite index_out_of_bounds.
Qed.

Lemma decompressChunk_in_bounds (P : Platform) (chunkIndex : Z) (w : World) :
  0 <= chunkIndex < chunkCount w →
  decompressChunk chunkIndex w = (Return (chunk_lines chunkIndex w), w).
Proof.
  intros Hk. unfold decompressChunk, decompressChunk_call, chunk_lines. run.
  by destruct (index_in_bounds (chunks (session w)) chunkIndex Hk) as [b ->].
Qed.

(** ** Window manager: cache hit and cache miss *)

Lemma resolve_hit (w : World) (start size : Z) :
  currentChunkIndex (session w) = start / chunkSize (session w) →
  resolve start size w
  = (Return (line_at (chunkSize (session w)) (start / chunkSize (session w))
               (prevBuffer (session w)) (buffer (session w))
               (nextBuffer (session w))
             <$> seqZ start size),
     on_host (set_Viewport start size) w).
Proof.
  intros Hhit. unfold resolve, getChunkedLines, JS.floor_div. run.
  rewrite Hhit, Z.eqb_refl. cbn. unfold Viewport_end. cbn.
  by replace (start + size - 1 - start + 1) with size by lia.
Qed.

Lemma resolve_miss (w : World) (start size : Z) :
  currentChunkIndex (session w) ≠ start / chunkSize (session w) →
  0 <= size →
  resolve start size w
  = (Return (JS.fill size "..."),
     on_reloads
       (λ rs, rs ++ [AwaitCurrent (start / chunkSize (session w))
                       (JS.index (chunks (session w))
                          (start / chunkSize (session w)))])
       (on_session (set_currentChunkIndex (start / chunkSize (session w)))
          (on_host (set_Viewport start size) w))).
Proof.
  intros Hmiss Hsize.
  unfold resolve, getChunkedLines, loadChunks, decompressChunk_call,
    placeholders, JS.floor_div.
  run.
  destruct (Z.eqb_spec (currentChunkIndex (session w))
              (start / chunkSize (session w))); [done|].
  cbn. destruct (Z.ltb_spec size 0); [lia|]. done.
Qed.

Lemma lookup_lines {A} (f : Z → A) (start size : Z) (k : nat) (x : A) :
  (f <$> seqZ start size) !! k = Some x → x = f (start + Z.of_nat k).
Proof.
  rewrite list_lookup_fmap. intros Hk.
  apply fmap_Some in Hk as (i & Hi & ->).
  apply lookup_seqZ in Hi as [-> _]. done.
Qed.

(** C5 (where the code departs from the claim): the read of the requested
    chunk in the reload has no bounds check.  In a session that was just
    activated the store is empty; the first repaint misses, returns the
    placeholders and starts a reload whose [decompressChunk(0)] picked up
    [undefined]; when that decompression settles it raises a type error,
    and the reload stops there with the buffers as they were. *)
Theorem reload_of_missing_chunk_rejects :
  chunkCount empty_store_world = 0
  ∧ ∃ w, resolve 0 3 empty_store_world = (Return ["..."; "..."; "..."], w)
       ∧ reloads w = [AwaitCurrent 0 None]
       ∧ @decompressChunk stored 0 w = (Throw TypeError, w)
       ∧ @resume stored (AwaitCurrent 0 None) w = (Throw TypeError, w).
Proof.
  split; [reflexivity|]. exists (resolve 0 3 empty_store_world).2.
  split_and!; vm_compute; reflexivity.
Qed.

(** C6 (as amended): with [chunkSize = 50000] and the window resident on
    chunk 0, resolving the viewport of lines 49990 through 50000 is a
    cache hit: the requested chunk is that of the viewport's first line,
    the current chunk index stays 0, no reload starts, and the display
    string of line 50000 is read from the resident next buffer at offset
    0, or is the empty string when that buffer is empty. *)
Theorem boundary_viewport_is_a_hit (w : World) :
  chunkSize (session w) = 50000 →
  currentChunkIndex (session w) = 0 →
  ∃ lines w',
    resolve 49990 11 w = (Return lines, w')
    ∧ w' = on_host (set_Viewport 49990 11) w
    ∧ currentChunkIndex (session w') = 0
    ∧ reloads w' = reloads w
    ∧ length lines = 11%nat
    ∧ lines !! 10%nat
      = Some (if JS.len (nextBuffer (session w)) >? 0
              then JS.index_or_empty (nextBuffer (session w)) 0 else "").
Proof.
  intros Hsize Hcur. do 2 eexists.
  split; [apply resolve_hit; by rewrite Hsize, Hcur|].
  rewrite Hsize. by split_and!.
Qed.

Lemma boundary_viewport_is_a_hit_witness :
  chunkSize (session boundary_world) = 50000
  ∧ currentChunkIndex (session boundary_world) = 0
  ∧ ∃ lines w',
      resolve 49990 11 boundary_world = (Return lines, w')
      ∧ w' = on_host (set_Viewport 49990 11) boundary_world
      ∧ currentChunkIndex (session w') = 0
      ∧ reloads w' = reloads boundary_world
      ∧ length lines = 11%nat
      ∧ lines !! 10%nat
        = Some (if JS.len (nextBuffer (session boundary_world)) >? 0
                then JS.index_or_empty (nextBuffer (session boundary_world)) 0
                else "").
Proof.
  assert (H1 : chunkSize (session boundary_world) = 50000)
    by (vm_compute; reflexivity).
  assert (H2 : currentChunkIndex (session boundary_world) = 0)
    by (vm_compute; reflexivity).
  split; [exact H1|]. split; [exact H2|].
  exact (boundary_viewport_is_a_hit boundary_world H1 H2).
Defined.

(** C6 as stated fails: 50001 lines are stored in two chunks and the
    window is loaded on chunk 0; resolving lines 49990 through 50000
    leaves the current chunk index at 0 and starts no reload, and line
    50000 is shown from the buffer that is already resident. *)
Lemma boundary_viewport_no_transition :
  chunkSize (session boundary_world) = 50000
  ∧ chunkCount boundary_world = 2
  ∧ currentChunkIndex (session boundary_world) = 0
  ∧ (resolve 49990 11 boundary_world).1
    = Return (JS.fill 10 "x" ++ ["line 50000"])
  ∧ currentChunkIndex (session (resolve 49990 11 boundary_world).2) = 0
  ∧ currentChunkIndex (session (resolve 49990 11 boundary_world).2) ≠ 1
  ∧ reloads (resolve 49990 11 boundary_world).2 = [].
Proof. vm_compute. split_and!; try reflexivity. discriminate. Qed.

(** A resident buffer that holds lines of the document only has nothing
    to show at or beyond [totalLines]. *)
Lemma line_at_beyond (w : World) (i : Z) :
  0 < chunkSize (session w) → within_document w →
  0 <= i → totalLines (session w) <= i →
  line_at (chunkSize (session w)) (currentChunkIndex (session w))
    (prevBuffer (session w)) (buffer (session w)) (nextBuffer (session w)) i
  = "".
Proof.
  intros Hcs (Hprev & Hcur & Hnext) Hi Htotal.
  unfold line_at, JS.floor_div, JS.remainder, JS.index_or_empty.
  rewrite Z.rem_mod_nonneg by lia.
  pose proof (Z.div_mod i (chunkSize (session w)) ltac:(lia)) as Hdm.
  set (c := currentChunkIndex (session w)) in *.
  set (q := i / chunkSize (session w)) in *.
  set (j := i mod chunkSize (session w)) in *.
  assert (Hnone : ∀ (d : Z) (b : list string),
            held_within w (c + d) b → q = c + d → default "" (JS.index b j) = "").
  { intros d b Hheld Hq.
    destruct (JS.index b j) as [l|] eqn:Hl; [|done].
    specialize (Hheld j (mk_is_Some _ _ Hl)). nia. }
  destruct (Z.eqb_spec q (c - 1)) as [Hq1|_]; cbn [andb].
  { destruct (JS.len (prevBuffer (session w)) >? 0).
    - apply (Hnone (-1)); [done|lia].
    - destruct (Z.eqb_spec q c); [lia|].
      destruct (Z.eqb_spec q (c + 1)); [lia|done]. }
  destruct (Z.eqb_spec q c) as [Hq2|_].
  { apply (Hnone 0); [by rewrite Z.add_0_r|lia]. }
  destruct (Z.eqb_spec q (c + 1)) as [Hq3|_]; cbn [andb]; [|done].
  destruct (JS.len (nextBuffer (session w)) >? 0); [|done].
  by apply (Hnone 1).
Qed.

(** C8 (as amended): in a session with a positive chunk size, [resolve]
    of a viewport with [viewportStart >= 0] and [viewportSize >= 0]
    returns in the call itself, never throws, and returns exactly
    [viewportSize] strings.  On a cache miss every one of them is the
    placeholder ["..."], also at positions beyond [totalLines].  On a
    cache hit, when the resident buffers hold lines of the document only,
    every position whose absolute line index is at or beyond [totalLines]
    yields the empty string. *)
Theorem resolve_total (w : World) (start size : Z) :
  0 < chunkSize (session w) → 0 <= start → 0 <= size →
  ∃ lines w',
    resolve start size w = (Return lines, w')
    ∧ JS.len lines = size
    ∧ (currentChunkIndex (session w) ≠ start / chunkSize (session w) →
       lines = JS.fill size "...")
    ∧ (currentChunkIndex (session w) = start / chunkSize (session w) →
       within_document w →
       ∀ (k : nat) (line : string),
         lines !! k = Some line →
         totalLines (session w) <= start + Z.of_nat k → line = "").
Proof.
  intros Hcs Hstart Hsize.
  destruct (decide (currentChunkIndex (session w)
                    = start / chunkSize (session w))) as [Hhit|Hmiss].
  - do 2 eexists. split; [by apply resolve_hit|]. split_and!.
    + unfold JS.len. rewrite length_fmap, length_seqZ. lia.
    + done.
    + intros _ Hdoc k line Hk Hbeyond.
      apply lookup_lines in Hk as ->. rewrite <- Hhit.
      apply line_at_beyond; [done|done|lia|done].
  - do 2 eexists. split; [by apply resolve_miss|]. split_and!.
    + unfold JS.len, JS.fill. rewrite length_replicate. lia.
    + done.
    + done.
Qed.

Lemma resolve_total_witness :
  0 < chunkSize (session boundary_world) ∧ 0 <= 49995 ∧ 0 <= 11
  ∧ ∃ lines w',
      resolve 49995 11 boundary_world = (Return lines, w')
      ∧ JS.len lines = 11.
Proof.
  assert (H1 : 0 < chunkSize (session boundary_world))
    by (vm_compute; reflexivity).
  assert (H2 : 0 <= 49995) by lia.
  assert (H3 : 0 <= 11) by lia.
  split; [exact H1|]. split; [exact H2|]. split; [exact H3|].
  destruct (resolve_total boundary_world 49995 11 H1 H2 H3)
    as (lines & w' & Hr & Hlen & _).
  exists lines, w'. split; [exact Hr|exact Hlen].
Defined.

(** C8 as stated fails on a cache miss: the session was just activated
    and holds no line, so both positions of the viewport lie outside
    [0, totalLines), and both show the placeholder, not the empty string. *)
Lemma resolve_miss_shows_placeholders :
  totalLines (session empty_store_world) = 0
  ∧ (resolve 0 2 empty_store_world).1 = Return ["..."; "..."]
  ∧ (resolve 0 2 empty_store_world).1 ≠ Return [""; ""].
Proof. split_and!; [reflexivity..|discriminate]. Qed.

(** ** Window manager: reads while a reload is in flight *)

(** The first decompression of a reload settles: [buffer] holds the
    lines of the chunk that was picked up at the call, and the reload is
    past its first [await]. *)
Lemma land_current (P : Platform) (k : Z) (bytes : list Byte.byte)
    (w : World) :
  reloads w = [AwaitCurrent k (Some bytes)] →
  ∃ w',
    land 0 w = (Return (), w')
    ∧ past_current w'
    ∧ buffer (session w') = decompress bytes
    ∧ currentChunkIndex (session w') = currentChunkIndex (session w)
    ∧ chunkSize (session w') = chunkSize (session w).
Proof.
  destruct w as [s h rs]. cbn. intros ->.
  unfold land, resume, loadChunks_previous, loadChunks_next,
    decompressChunk_call, decompressChunk_settle, past_current.
  run.
  destruct ((k - 1 >=? 0) && (k - 1 <? JS.len (chunks s))); cbn;
    [|destruct (k + 1 <? JS.len (chunks s)); cbn];
    (eexists; split; [reflexivity|]); cbn; split_and!; eauto.
Qed.

(** Once past its first [await], a reload leaves [buffer] and
    [currentChunkIndex] alone, whether it goes on, ends or rejects. *)
Lemma land_past_current (P : Platform) (w : World) :
  past_current w →
  ∃ w',
    land 0 w = (Return (), w')
    ∧ past_current w'
    ∧ buffer (session w') = buffer (session w)
    ∧ currentChunkIndex (session w') = currentChunkIndex (session w)
    ∧ chunkSize (session w') = chunkSize (session w).
Proof.
  destruct w as [s h rs]. unfold past_current. cbn.
  intros [->|[(k & c & ->)|(k & c & ->)]].
  - exists {| session := s; host := h; reloads := [] |}. by split_and!; eauto.
  - unfold land, resume, loadChunks_next, decompressChunk_call,
      decompressChunk_settle.
    run. destruct c as [b|]; cbn;
      [destruct (k + 1 <? JS.len (chunks s)); cbn|];
      (eexists; split; [reflexivity|]); cbn; split_and!; eauto.
  - unfold land, resume, decompressChunk_settle.
    run. destruct c as [b|]; cbn;
      (eexists; split; [reflexivity|]); cbn; split_and!; eauto.
Qed.

Lemma lands_past_current (P : Platform) (n : nat) (w : World) :
  past_current w →
  ∃ w',
    lands n w = (Return (), w')
    ∧ buffer (session w') = buffer (session w)
    ∧ currentChunkIndex (session w') = currentChunkIndex (session w)
    ∧ chunkSize (session w') = chunkSize (session w).
Proof.
  revert w. induction n as [|n IH]; intros w Hpast.
  { by exists w. }
  destruct (land_past_current P w Hpast)
    as (w1 & Hland & Hpast1 & Hb1 & Hc1 & Hs1).
  destruct (IH w1 Hpast1) as (w' & Hlands & Hb & Hc & Hs).
  exists w'. cbn [lands]. unfold mbind, M_bind. rewrite Hland.
  split_and!; [done|congruence..].
Qed.

(** A cache hit shows, at a position of the current chunk, the line of
    [buffer] at the position's offset. *)
Lemma line_at_current (cs k : Z) (prev buf next : list string) (i : Z) :
  i / cs = k →
  line_at cs k prev buf next i = JS.index_or_empty buf (JS.remainder i cs).
Proof.
  intros Hi. unfold line_at, JS.floor_div. rewrite Hi.
  replace (k =? k - 1) with false by (symmetry; apply Z.eqb_neq; lia).
  cbn. by rewrite Z.eqb_refl.
Qed.

(** C10 (as amended): after a cache miss for chunk [R], which sets
    [currentChunkIndex = R] in the call itself and returns placeholders,
    and until the first decompression of its reload settles, any further
    [resolve] whose viewport start maps to chunk [R] takes the cache-hit
    path (it starts no reload and changes nothing but the viewport) and
    returns the lines of the buffers that were resident before the miss,
    indexed as though they were the lines of chunks [R-1], [R], [R+1].
    When chunk [R] is in the store and no other reload is in flight, from
    the moment that first decompression has settled -- after one or more
    of the reload's decompressions, also while the neighbour chunks are
    still loading -- such a [resolve] is a cache hit as well, [buffer]
    holds the lines of chunk [R], and every position of the viewport that
    lies in chunk [R] shows the line of chunk [R] at its offset. *)
Theorem resolve_before_reload_lands (P : Platform) (w : World)
    (start size start' size' : Z) :
  currentChunkIndex (session w) ≠ start / chunkSize (session w) →
  0 <= size →
  start' / chunkSize (session w) = start / chunkSize (session w) →
  ∃ w1,
    resolve start size w = (Return (JS.fill size "..."), w1)
    ∧ currentChunkIndex (session w1) = start / chunkSize (session w)
    ∧ resolve start' size' w1
      = (Return (line_at (chunkSize (session w))
                   (start / chunkSize (session w))
                   (prevBuffer (session w)) (buffer (session w))
                   (nextBuffer (session w))
                 <$> seqZ start' size'),
         on_host (set_Viewport start' size') w1)
    ∧ (reloads w = [] →
       0 < chunkSize (session w) →
       0 <= start / chunkSize (session w) < chunkCount w →
       ∀ n, (0 < n)%nat →
         ∃ w2 lines,
           lands n w1 = (Return (), w2)
           ∧ currentChunkIndex (session w2) = start / chunkSize (session w)
           ∧ buffer (session w2)
             = chunk_lines (start / chunkSize (session w)) w
           ∧ resolve start' size' w2
             = (Return lines, on_host (set_Viewport start' size') w2)
           ∧ JS.len lines = Z.max 0 size'
           ∧ ∀ (j : nat) (line : string),
               lines !! j = Some line →
               (start' + Z.of_nat j) / chunkSize (session w)
               = start / chunkSize (session w) →
               line
               = JS.index_or_empty
                   (chunk_lines (start / chunkSize (session w)) w)
                   (JS.remainder (start' + Z.of_nat j)
                      (chunkSize (session w)))).
Proof.
  intros Hmiss Hsize Hsame. eexists.
  split; [by apply resolve_miss|]. split; [done|].
  split.
  { rewrite resolve_hit by (cbn; by rewrite Hsame).
    cbn. by rewrite Hsame. }
  intros Hrel Hcs HR n Hn.
  set (R := start / chunkSize (session w)) in *.
  destruct (index_in_bounds (chunks (session w)) R HR) as [b Hb].
  assert (Hlines : chunk_lines R w = decompress b)
    by (unfold chunk_lines; by rewrite Hb).
  destruct n as [|n]; [lia|].
  match goal with
  | |- context [lands _ ?w1] =>
      destruct (land_current P R b w1) as (wa & Hland & Hpast & Hba & Hca & Hsa);
        [cbn; by rewrite Hrel, Hb|]
  end.
  destruct (lands_past_current P n wa Hpast) as (w2 & Hlands & Hb2 & Hc2 & Hs2).
  cbn in Hca, Hsa.
  assert (Hcur : currentChunkIndex (session w2) = R) by congruence.
  assert (Hsize2 : chunkSize (session w2) = chunkSize (session w))
    by congruence.
  eexists w2, _. split_and!.
  - cbn [lands]. unfold mbind, M_bind. by rewrite Hland.
  - done.
  - congruence.
  - apply resolve_hit. by rewrite Hsize2, Hsame.
  - unfold JS.len. rewrite length_fmap, length_seqZ. lia.
  - intros j line Hj Hin. apply lookup_lines in Hj. subst line.
    rewrite Hsize2, Hsame. fold R.
    rewrite line_at_current by done. congruence.
Qed.

Lemma resolve_before_reload_lands_witness :
  currentChunkIndex (session seven_lines_world)
    ≠ 4 / chunkSize (session seven_lines_world)
  ∧ 0 <= 1
  ∧ 5 / chunkSize (session seven_lines_world)
    = 4 / chunkSize (session seven_lines_world)
  ∧ reloads seven_lines_world = []
  ∧ 0 < chunkSize (session seven_lines_world)
  ∧ 0 <= 4 / chunkSize (session seven_lines_world)
      < chunkCount seven_lines_world
  ∧ (0 < 1)%nat
  ∧ ∃ w1,
      resolve 4 1 seven_lines_world = (Return ["..."], w1)
      ∧ (resolve 5 1 w1).1 = Return ["b"]
      ∧ ∃ w2,
          @lands stored 1 w1 = (Return (), w2)
          ∧ buffer (session w2) = ["e"; "f"]
          ∧ (resolve 5 1 w2).1 = Return ["f"].
Proof.
  assert (H1 : currentChunkIndex (session seven_lines_world)
               ≠ 4 / chunkSize (session seven_lines_world))
    by (vm_compute; discriminate).
  assert (H2 : 0 <= 1) by lia.
  assert (H3 : 5 / chunkSize (session seven_lines_world)
               = 4 / chunkSize (session seven_lines_world))
    by (vm_compute; reflexivity).
  assert (H4 : reloads seven_lines_world = []) by reflexivity.
  assert (H5 : 0 < chunkSize (session seven_lines_world))
    by (vm_compute; reflexivity).
  assert (H6 : 0 <= 4 / chunkSize (session seven_lines_world)
               < chunkCount seven_lines_world)
    by (vm_compute; split; [discriminate|reflexivity]).
  assert (H7 : (0 < 1)%nat) by lia.
  split; [exact H1|]. split; [exact H2|]. split; [exact H3|].
  split; [exact H4|]. split; [exact H5|]. split; [exact H6|].
  split; [exact H7|].
  destruct (resolve_before_reload_lands stored seven_lines_world 4 1 5 1
              H1 H2 H3)
    as (w1 & Hfirst & _ & Hsecond & Hlater).
  exists w1. split; [exact Hfirst|].
  split; [rewrite Hsecond; reflexivity|].
  destruct (Hlater H4 H5 H6 1%nat H7)
    as (w2 & lines & Hlands & _ & Hbuffer & Hthird & Hlen & Hshown).
  exists w2. split; [exact Hlands|].
  split; [rewrite Hbuffer; reflexivity|].
  rewrite Hthird. cbn [fst].
  destruct lines as [|line [|line' rest]];
    [vm_compute in Hlen; discriminate| |unfold JS.len in Hlen; cbn in Hlen; lia].
  rewrite (Hshown 0%nat line eq_refl eq_refl). reflexivity.
Defined.

(** C10 as stated fails between the first and the last decompression of
    the reload: the window holds chunk 0 (["a"; "b"]), the viewport jumps
    to line 4 in chunk 2, the decompression of chunk 2 settles while that
    of chunk 1 is still awaited, and the next repaint shows ["e"], the
    actual first line of chunk 2, not the ["a"] of the old buffer. *)
Lemma resolve_while_neighbours_load :
  buffer (session seven_lines_world) = ["a"; "b"]
  ∧ @chunk_lines stored 2 seven_lines_world = ["e"; "f"]
  ∧ half_loaded_run.1 = Return ["e"]
  ∧ half_loaded_run.1
    ≠ Return (line_at 2 2 (prevBuffer (session seven_lines_world))
                (buffer (session seven_lines_world))
                (nextBuffer (session seven_lines_world))
              <$> seqZ 4 1)
  ∧ reloads half_loaded_run.2
    = [AwaitPrevious 2 (JS.index (chunks (session seven_lines_world)) 1)].
Proof. vm_compute. split_and!; try reflexivity. discriminate. Qed.

(** ** Window manager: reloads that overlap *)

Lemma bind_run {A B} (m : M A) (k : A → M B) (w w' : World) (a : A) :
  m w = (Return a, w') → (m ≫= k) w = k a w'.
Proof. intros Hm. unfold mbind, M_bind. by rewrite Hm. Qed.

(** One step of a reload writes buffers and counts a render only, and
    brings the reload nearer to its end. *)
Lemma resume_frame (P : Platform) (r : Reload) (w : World) :
  ∃ o w',
    resume r w = (o, w')
    ∧ o ≠ OutOfFuel
    ∧ same_store w w'
    ∧ ∀ r', o = Return (Some r') → (awaits r' < awaits r)%nat.
Proof.
  destruct w as [s h rs]. unfold same_store.
  destruct r as [k [b|]|k [b|]|k [b|]];
    unfold resume, loadChunks_previous, loadChunks_next,
      decompressChunk_call, decompressChunk_settle;
    run;
    repeat (case_match; cbn);
    do 2 eexists; (split; [reflexivity|]);
    (split; [done|]); (split; [done|]);
    intros r' Hr'; simplify_eq; cbn; lia.
Qed.

(** A reload that runs to its end, or rejects on the way, leaves the
    store alone, and as many steps as it has [await]s are enough. *)
Lemma run_reload_frame (P : Platform) (fuel : nat) (r : Reload) (w : World) :
  (awaits r <= fuel)%nat →
  ∃ o w', run_reload fuel r w = (o, w') ∧ o ≠ OutOfFuel ∧ same_store w w'.
Proof.
  revert r w. induction fuel as [|fuel IH]; intros r w Hfuel.
  { destruct r; cbn in Hfuel; lia. }
  destruct (resume_frame P r w) as (o & w1 & Hres & Ho & Hsame & Hrank).
  cbn [run_reload]. unfold mbind, M_bind. rewrite Hres.
  destruct o as [[r'|]| |]; [| | |done].
  - specialize (Hrank r' eq_refl).
    destruct (IH r' w1 ltac:(lia)) as (o' & w' & Hrun & Ho' & Hsame').
    exists o', w'. split_and!; [done..|].
    unfold same_store in *. destruct_and!. split_and!; congruence.
  - exists (Return ()), w1. by split_and!.
  - exists (Throw e), w1. by split_and!.
Qed.

(** A reload for a chunk of the store, run to its end from its first
    [await], leaves the window of that chunk. *)
Lemma run_reload_current (P : Platform) (k : Z) (w : World) :
  0 <= k < chunkCount w →
  ∃ w',
    run_reload 3 (AwaitCurrent k (JS.index (chunks (session w)) k)) w
    = (Return (), w')
    ∧ chunks (session w') = chunks (session w)
    ∧ currentChunkIndex (session w') = currentChunkIndex (session w)
    ∧ reloads w' = reloads w
    ∧ window_of k w'.
Proof.
  intros Hk. destruct w as [s h rs]. unfold chunkCount in Hk. cbn in Hk.
  destruct (index_in_bounds (chunks s) k Hk) as [b Hb].
  unfold window_of, chunk_lines, chunkCount.
  unfold run_reload, resume, loadChunks_previous, loadChunks_next,
    decompressChunk_call, decompressChunk_settle.
  run. rewrite Hb. cbn.
  destruct ((k - 1 >=? 0) && (k - 1 <? JS.len (chunks s))) eqn:Hprev; cbn.
  - pose proof Hprev as [Hp1%Z.geb_le Hp2%Z.ltb_lt]%andb_true_iff.
    destruct (index_in_bounds (chunks s) (k - 1) ltac:(lia)) as [bp Hbp].
    rewrite Hbp. cbn.
    destruct (k + 1 <? JS.len (chunks s)) eqn:Hnext; cbn.
    + pose proof Hnext as Hn%Z.ltb_lt.
      destruct (index_in_bounds (chunks s) (k + 1) ltac:(lia)) as [bn Hbn].
      rewrite Hbn. cbn. eexists. split; [reflexivity|]. cbn.
      rewrite Hb, Hbp, Hbn, Hprev, Hnext. by split_and!.
    + eexists. split; [reflexivity|]. cbn.
      rewrite Hb, Hbp, Hprev, Hnext. by split_and!.
  - destruct (k + 1 <? JS.len (chunks s)) eqn:Hnext; cbn.
    + pose proof Hnext as Hn%Z.ltb_lt.
      destruct (index_in_bounds (chunks s) (k + 1) ltac:(lia)) as [bn Hbn].
      rewrite Hbn. cbn. eexists. split; [reflexivity|]. cbn.
      rewrite Hb, Hbn, Hprev, Hnext. by split_and!.
    + eexists. split; [reflexivity|]. cbn.
      rewrite Hb, Hprev, Hnext. by split_and!.
Qed.

(** C3 (as amended): the code has no staleness check, and every reload
    writes each buffer when its own decompression settles.  For two
    viewport jumps, to chunk A and then to a chunk B of the store, both
    issued before the first reload completes: when the superseded reload
    for A runs to its end (or rejects) before the first decompression of
    the reload for B settles, the current chunk index is B and the final
    previous/current/next buffers are those of chunk B. *)
Theorem superseded_reload_finishing_first (P : Platform) (w : World)
    (startA startB size : Z) :
  reloads w = [] →
  0 <= size →
  currentChunkIndex (session w) ≠ startA / chunkSize (session w) →
  startA / chunkSize (session w) ≠ startB / chunkSize (session w) →
  0 <= startB / chunkSize (session w) < chunkCount w →
  ∃ w',
    (resolve startA size;; resolve startB size;; finish 0;; finish 0) w
    = (Return (), w')
    ∧ currentChunkIndex (session w') = startB / chunkSize (session w)
    ∧ window_of (startB / chunkSize (session w)) w'
    ∧ reloads w' = [].
Proof.
  intros Hnone Hsize HmissA HmissB HB.
  erewrite bind_run by (by apply resolve_miss).
  erewrite bind_run by (by apply resolve_miss).
  destruct w as [s h rs]. cbn in *. subst rs.
  set (A := startA / chunkSize s) in *. set (B := startB / chunkSize s) in *.
  unfold mbind, M_bind. unfold finish at 1. cbn -[run_reload].
  match goal with |- context [run_reload 3 ?r ?w1] =>
    destruct (run_reload_frame P 3 r w1 ltac:(destruct r; cbn; lia))
      as (o & w2 & Hrun & Ho & Hchunks & _ & Hcur & Hrel)
  end.
  rewrite Hrun. cbn in Hchunks, Hcur, Hrel.
  assert (Hfirst :
    match o with
    | OutOfFuel => (@OutOfFuel unit, w2)
    | _ => (Return (), w2)
    end = (Return (), w2)) by (by destruct o).
  rewrite Hfirst. clear Hfirst. unfold finish. rewrite Hrel. cbn -[run_reload].
  rewrite <- Hchunks.
  destruct (run_reload_current P B (on_reloads (delete 0%nat) w2))
    as (w3 & Hrun3 & _ & Hcur3 & Hrel3 & Hwin).
  { unfold chunkCount in *. cbn. by rewrite Hchunks. }
  cbn -[run_reload] in Hrun3. rewrite Hrun3. exists w3. split; [done|].
  cbn in Hcur3, Hrel3. rewrite Hrel in Hrel3. split_and!; [congruence|done..].
Qed.

Lemma superseded_reload_finishing_first_witness :
  reloads seven_lines_world = []
  ∧ 0 <= 1
  ∧ currentChunkIndex (session seven_lines_world)
    ≠ 2 / chunkSize (session seven_lines_world)
  ∧ 2 / chunkSize (session seven_lines_world)
    ≠ 4 / chunkSize (session seven_lines_world)
  ∧ 0 <= 4 / chunkSize (session seven_lines_world)
      < chunkCount seven_lines_world
  ∧ ∃ w',
      (resolve 2 1;; resolve 4 1;; @finish stored 0;; @finish stored 0)
        seven_lines_world
      = (Return (), w')
      ∧ currentChunkIndex (session w')
        = 4 / chunkSize (session seven_lines_world)
      ∧ @window_of stored (4 / chunkSize (session seven_lines_world)) w'
      ∧ reloads w' = [].
Proof.
  assert (H1 : reloads seven_lines_world = []) by reflexivity.
  assert (H2 : 0 <= 1) by lia.
  assert (H3 : currentChunkIndex (session seven_lines_world)
               ≠ 2 / chunkSize (session seven_lines_world))
    by (vm_compute; discriminate).
  assert (H4 : 2 / chunkSize (session seven_lines_world)
               ≠ 4 / chunkSize (session seven_lines_world))
    by (vm_compute; discriminate).
  assert (H5 : 0 <= 4 / chunkSize (session seven_lines_world)
               < chunkCount seven_lines_world)
    by (vm_compute; split; [discriminate|reflexivity]).
  split; [exact H1|]. split; [exact H2|]. split; [exact H3|].
  split; [exact H4|]. split; [exact H5|].
  exact (superseded_reload_finishing_first stored seven_lines_world 2 4 1
           H1 H2 H3 H4 H5).
Defined.

(** C3 as stated fails: seven lines are stored in chunks of 2 and the
    window is on chunk 0.  The viewport jumps to chunk 1 and then to chunk
    2 before any decompression settles; the decompressions of the reload
    for chunk 2 settle first and those of the superseded reload for chunk
    1 last.  Nothing is discarded: the current chunk index is 2 and the
    three buffers are those of chunk 1. *)
Lemma superseded_reload_overwrites :
  stale_run.1 = Return ()
  ∧ reloads stale_run.2 = []
  ∧ currentChunkIndex (session stale_run.2) = 2
  ∧ buffer (session stale_run.2) = ["c"; "d"]
  ∧ prevBuffer (session stale_run.2) = ["a"; "b"]
  ∧ nextBuffer (session stale_run.2) = ["e"; "f"]
  ∧ @chunk_lines stored 1 stale_run.2 = ["c"; "d"]
  ∧ @chunk_lines stored 2 stale_run.2 = ["e"; "f"]
  ∧ @window_of stored 1 stale_run.2
  ∧ ¬ @window_of stored 2 stale_run.2.
Proof.
  split_and!; try (vm_compute; reflexivity).
  - vm_compute. split_and!; reflexivity.
  - intros [Hbuffer _]. vm_compute in Hbuffer. discriminate.
Qed.

(** In another order of the same completions the final window is a mix:
    the current buffer is that of chunk 2, its two neighbours are those
    that the reload for chunk 1 loaded. *)
Lemma superseded_reload_mixes :
  mixed_run.1 = Return ()
  ∧ reloads mixed_run.2 = []
  ∧ currentChunkIndex (session mixed_run.2) = 2
  ∧ buffer (session mixed_run.2) = ["e"; "f"]
  ∧ prevBuffer (session mixed_run.2) = ["a"; "b"]
  ∧ nextBuffer (session mixed_run.2) = ["e"; "f"].
Proof. vm_compute. by split_and!. Qed.

(** ** Ingestion *)

Lemma clamp_bounds {A} (l : list A) (k : Z) :
  0 <= JS.clamp l k <= JS.len l.
Proof. unfold JS.clamp, JS.len. destruct (Z.ltb_spec k 0); lia. Qed.

Lemma len_slice_0 {A} (l : list A) (e : Z) :
  JS.len (JS.slice l 0 e) = JS.clamp l e.
Proof.
  pose proof (clamp_bounds l e) as He. unfold JS.slice, JS.len in *.
  change (JS.clamp l 0) with (Z.min 0 (Z.of_nat (length l))).
  rewrite Z.min_l by lia. change (Z.to_nat 0) with 0%nat. rewrite drop_0.
  rewrite length_take. lia.
Qed.

Lemma len_slice_from {A} (l : list A) (b : Z) :
  JS.len (JS.slice_from l b) = JS.len l - JS.clamp l b.
Proof.
  pose proof (clamp_bounds l b) as Hb. unfold JS.slice_from, JS.len in *.
  rewrite length_drop. lia.
Qed.

(** [slice(0, n)] and [slice(n)] share out the array, whatever [n] is. *)
Lemma len_slices {A} (l : list A) (n : Z) :
  JS.len (JS.slice l 0 n) + JS.len (JS.slice_from l n) = JS.len l.
Proof. rewrite len_slice_0, len_slice_from. lia. Qed.

Lemma chunkLines_of_returns (P : Platform) (startChunkIndex : Z) (w : World) :
  0 <= startChunkIndex →
  ∃ chunkLines, chunkLines_of startChunkIndex w = (Return chunkLines, w).
Proof.
  intros Hk. unfold chunkLines_of. run.
  destruct (Z.ltb_spec startChunkIndex (JS.len (chunks (session w)))).
  - eexists. by apply decompressChunk_in_bounds.
  - by eexists.
Qed.

Lemma compressChunk_returns (P : Platform) (chunkIndex : Z)
    (lines : list string) (w : World) :
  ∃ chunks', compressChunk chunkIndex lines w
             = (Return (), on_session (set_chunks chunks') w).
Proof. unfold compressChunk. run. case_match; by eexists. Qed.

(** The loop of [appendChunkedLines] ends, without a throw, when it is
    given as many iterations as there are lines left, and adds the number
    of these lines to [totalLines]. *)
Lemma append_loop_total (P : Platform) (fuel : nat) :
  ∀ (startChunkIndex startPosInChunk : Z) (remainingLines : list string)
    (w : World),
    0 <= startChunkIndex →
    0 <= startPosInChunk < chunkSize (session w) →
    (length remainingLines <= fuel)%nat →
    ∃ w',
      append_loop fuel startChunkIndex startPosInChunk remainingLines w
      = (Return (), w')
      ∧ totalLines (session w')
        = totalLines (session w) + JS.len remainingLines
      ∧ chunkSize (session w') = chunkSize (session w)
      ∧ host w' = host w.
Proof.
  induction fuel as [|fuel IH]; intros k pos rem w Hk Hpos Hfuel.
  { destruct rem; [|cbn in Hfuel; lia]. exists w. cbn. split_and!; [done|unfold JS.len; cbn; lia|done..]. }
  destruct rem as [|x rest].
  { exists w. cbn. split_and!; [done|unfold JS.len; cbn; lia|done..]. }
  set (rem := x :: rest) in *.
  assert (Hlen : 0 < JS.len rem) by (unfold JS.len, rem; cbn; lia).
  cbn [append_loop].
  destruct (Z.eqb_spec (JS.len rem) 0) as [?|_]; [lia|].
  erewrite (bind_run (read chunkSize)) by reflexivity. cbn beta.
  unfold compose.
  destruct (chunkLines_of_returns P k w Hk) as [chunkLines Hlines].
  destruct (Z.leb_spec (JS.len rem) (chunkSize (session w) - pos)) as [Hfit|Hmore].
  - erewrite bind_run by exact Hlines. cbn beta zeta.
    erewrite (bind_run (read totalLines)) by reflexivity.
    erewrite (bind_run (assign _)) by reflexivity.
    unfold compose.
    match goal with |- context [compressChunk k ?ls ?w1] =>
      destruct (compressChunk_returns P k ls w1) as [cs' ->]
    end.
    eexists. by split_and!.
  - erewrite bind_run by exact Hlines. cbn beta zeta.
    erewrite (bind_run (read totalLines)) by reflexivity.
    erewrite (bind_run (assign _)) by reflexivity.
    unfold compose.
    match goal with |- context [(compressChunk k ?ls ≫= _) ?w1] =>
      destruct (compressChunk_returns P k ls w1) as [cs' Hcs]
    end.
    erewrite bind_run by exact Hcs.
    pose proof (len_slices rem (chunkSize (session w) - pos)) as Hshare.
    pose proof (len_slice_0 rem (chunkSize (session w) - pos)) as Htake.
    unfold JS.clamp in Htake. unfold JS.len in Hmore, Hshare, Htake.
    destruct (Z.ltb_spec (chunkSize (session w) - pos) 0); [lia|].
    rewrite Z.min_l in Htake by lia.
    edestruct (IH (k + 1) 0
                 (JS.slice_from rem (chunkSize (session w) - pos)))
      as (w' & -> & Htotal & Hsize & Hhost);
      [lia|cbn; lia|unfold JS.len in *; cbn in *; lia|].
    exists w'. cbn in Htotal, Hsize, Hhost. unfold JS.len in *.
    split_and!; [done|lia|done..].
Qed.

(** In a session with a positive chunk size and a total that is not
    negative, [appendChunkedLines] ends without a throw and adds exactly
    the number of the new lines to [totalLines], whichever chunk the
    window holds. *)
Lemma appendChunkedLines_total (P : Platform) (newLines : list string)
    (skipRender : bool) (w : World) :
  0 < chunkSize (session w) → 0 <= totalLines (session w) →
  ∃ w',
    appendChunkedLines newLines skipRender w = (Return (), w')
    ∧ totalLines (session w') = totalLines (session w) + JS.len newLines.
Proof.
  intros Hcs Htotal. unfold appendChunkedLines, JS.floor_div, JS.remainder.
  erewrite (bind_run (read totalLines)) by reflexivity.
  erewrite (bind_run (read chunkSize)) by reflexivity.
  erewrite (bind_run (read currentChunkIndex)) by reflexivity.
  unfold compose. cbn beta zeta.
  assert (Hk : 0 <= totalLines (session w) / chunkSize (session w))
    by (apply Z.div_pos; lia).
  pose proof (Z.rem_bound_pos (totalLines (session w))
                (chunkSize (session w)) Htotal Hcs) as Hpos.
  destruct (totalLines (session w) / chunkSize (session w)
            =? currentChunkIndex (session w)).
  - erewrite (bind_run (read buffer ≫= _)) by reflexivity.
    cbn beta iota zeta. unfold compose.
    match goal with |- context [(append_loop ?f ?k ?pos ?rem ≫= _) ?w1] =>
      destruct (append_loop_total P f k pos rem w1)
        as (w2 & Hloop & Htotal2 & _); [lia|cbn; lia|lia|]
    end.
    erewrite bind_run by exact Hloop.
    pose proof (len_slices newLines
                  (chunkSize (session w) - JS.len (buffer (session w)))).
    cbn in Htotal2.
    destruct skipRender; eexists; (split; [reflexivity|]); cbn; lia.
  - erewrite (bind_run (mret _)) by reflexivity. cbn beta iota zeta.
    destruct (append_loop_total P (length newLines)
                (totalLines (session w) / chunkSize (session w))
                (Z.rem (totalLines (session w)) (chunkSize (session w)))
                newLines w) as (w2 & Hloop & Htotal2 & _); [lia..|].
    erewrite bind_run by exact Hloop.
    destruct skipRender; eexists; (split; [reflexivity|]); cbn; lia.
Qed.

(** *** Appending while the window is elsewhere

    The loop of [appendChunkedLines] keeps the store in step with the
    document. *)

Lemma len_app {A} (l l' : list A) : JS.len (l ++ l') = JS.len l + JS.len l'.
Proof. unfold JS.len. rewrite length_app. lia. Qed.

Lemma ceil_div_unique (a b q : Z) :
  0 < b → (q - 1) * b < a <= q * b → ceil_div a b = q.
Proof.
  intros Hb Ha. unfold ceil_div.
  assert (Hq : (- a) / b = - q); [|lia].
  symmetry. apply (Z.div_unique_pos (- a) b (- q) (q * b - a)); lia.
Qed.

Lemma len_store_at (cs : list (list Byte.byte)) (k : Z) (x : list Byte.byte) :
  JS.len (store_at cs k x) = JS.len cs.
Proof.
  unfold store_at, JS.len. destruct (k <? 0); [done|].
  by rewrite length_insert.
Qed.

Lemma index_store_at_eq (cs : list (list Byte.byte)) (k : Z)
    (x : list Byte.byte) :
  0 <= k < JS.len cs → JS.index (store_at cs k x) k = Some x.
Proof.
  unfold store_at, JS.index, JS.len. intros Hk.
  destruct (Z.ltb_spec k 0); [lia|].
  apply list_lookup_insert_eq. lia.
Qed.

Lemma index_store_at_ne (cs : list (list Byte.byte)) (k i : Z)
    (x : list Byte.byte) :
  i ≠ k → JS.index (store_at cs k x) i = JS.index cs i.
Proof.
  unfold store_at, JS.index. intros Hik.
  destruct (Z.ltb_spec k 0); [done|]. destruct (Z.ltb_spec i 0); [done|].
  apply list_lookup_insert_ne. lia.
Qed.

Lemma index_push_eq {A} (l : list A) (x : A) :
  JS.index (l ++ [x]) (JS.len l) = Some x.
Proof.
  unfold JS.index, JS.len. destruct (Z.ltb_spec (Z.of_nat (length l)) 0); [lia|].
  rewrite Nat2Z.id. rewrite lookup_app_r by lia.
  by rewrite Nat.sub_diag.
Qed.

Lemma index_push_lt {A} (l : list A) (x : A) (i : Z) :
  i < JS.len l → JS.index (l ++ [x]) i = JS.index l i.
Proof.
  unfold JS.index, JS.len. intros Hi.
  destruct (Z.ltb_spec i 0); [done|]. apply lookup_app_l. lia.
Qed.

Lemma owned_range_app_full (chunkSize : Z) (doc more : list string) (i : Z) :
  0 < chunkSize → 0 <= i → (i + 1) * chunkSize <= JS.len doc →
  owned_range chunkSize (doc ++ more) i = owned_range chunkSize doc i.
Proof.
  unfold owned_range, JS.len. intros Hcs Hi Hfull.
  rewrite drop_app_le by lia. rewrite take_app_le; [done|].
  rewrite length_drop. lia.
Qed.

Lemma owned_range_app_tail (chunkSize : Z) (doc more : list string) (k : Z) :
  0 < chunkSize → 0 <= k → k * chunkSize <= JS.len doc →
  JS.len doc + JS.len more <= (k + 1) * chunkSize →
  owned_range chunkSize (doc ++ more) k
  = drop (Z.to_nat (k * chunkSize)) doc ++ more.
Proof.
  unfold owned_range, JS.len. intros Hcs Hk Hlow Hhigh.
  rewrite drop_app_le by lia. apply take_ge.
  rewrite length_app, length_drop. lia.
Qed.

Lemma chunkLines_of_spec (P : Platform) (k : Z) (w : World) :
  0 <= k → chunkLines_of k w = (Return (chunk_lines k w), w).
Proof.
  intros Hk. unfold chunkLines_of. run.
  destruct (Z.ltb_spec k (JS.len (chunks (session w)))).
  - by apply decompressChunk_in_bounds.
  - unfold chunk_lines. by rewrite index_out_of_bounds by (right; done).
Qed.

Lemma compressChunk_spec (P : Platform) (k : Z) (lines : list string)
    (w : World) :
  compressChunk k lines w
  = (Return (),
     on_session
       (set_chunks
          (if k <? JS.len (chunks (session w))
           then store_at (chunks (session w)) k (compress lines)
           else chunks (session w) ++ [compress lines])) w).
Proof. unfold compressChunk. run. by case_match. Qed.

(** The chunk that is open for writing holds the lines of the document
    from its first line on, and exists when it holds any. *)
Lemma tail_chunk (P : Platform) (doc : list string) (k pos : Z) (w : World) :
  0 < chunkSize (session w) → store_holds doc w →
  JS.len doc = k * chunkSize (session w) + pos →
  0 <= k → 0 <= pos < chunkSize (session w) →
  chunk_lines k w = drop (Z.to_nat (k * chunkSize (session w))) doc
  ∧ chunkCount w = (if pos =? 0 then k else k + 1).
Proof.
  intros Hcs (Htotal & Hcount & Hlines) Hlen Hk Hpos.
  destruct (Z.eqb_spec pos 0) as [->|Hne].
  - assert (Hc : chunkCount w = k)
      by (rewrite Hcount; apply ceil_div_unique; lia).
    split; [|done]. unfold chunk_lines.
    rewrite index_out_of_bounds by (right; unfold chunkCount in Hc; lia).
    symmetry. apply drop_ge. unfold JS.len in Hlen. lia.
  - assert (Hc : chunkCount w = k + 1)
      by (rewrite Hcount; apply ceil_div_unique; lia).
    split; [|done]. rewrite Hlines by lia. unfold owned_range.
    apply take_ge. rewrite length_drop. unfold JS.len in Hlen. lia.
Qed.

(** Writing the lines [taken] behind the lines of the open chunk keeps
    the store in step with the document. *)
Lemma store_holds_persist (P : Platform) (doc taken : list string)
    (k pos : Z) (w : World) :
  Lossless P →
  0 < chunkSize (session w) → store_holds doc w →
  JS.len doc = k * chunkSize (session w) + pos →
  0 <= k → 0 <= pos < chunkSize (session w) →
  taken ≠ [] → JS.len taken <= chunkSize (session w) - pos →
  Forall no_newline doc → Forall no_newline taken →
  store_holds (doc ++ taken)
    (on_session
       (set_chunks
          (if k <? JS.len (chunks (session w))
           then store_at (chunks (session w)) k
                  (compress (chunk_lines k w ++ taken))
           else chunks (session w) ++ [compress (chunk_lines k w ++ taken)]))
       (on_session (set_totalLines (totalLines (session w) + JS.len taken))
          w)).
Proof.
  intros HP Hcs Hholds Hlen Hk Hpos Hne Hfit Hdoc Htaken.
  destruct (tail_chunk P doc k pos w) as [Htail Hcount]; [done..|].
  destruct Hholds as (Htotal & _ & Hlines).
  assert (Htaken1 : 0 < JS.len taken)
    by (destruct taken; [done|unfold JS.len; cbn; lia]).
  assert (Hround :
    decompress (compress (chunk_lines k w ++ taken)) = chunk_lines k w ++ taken).
  { apply decompress_compress; [done| |].
    - by destruct (chunk_lines k w), taken.
    - apply Forall_app. split; [|done]. rewrite Htail. by apply Forall_drop. }
  set (bytes := compress (chunk_lines k w ++ taken)) in *.
  destruct w as [s h rs]. unfold store_holds, chunkCount, chunk_lines in *.
  cbn in *. rewrite !len_app.
  assert (Hcases : (pos = 0 ∧ JS.len (chunks s) = k)
                   ∨ (pos ≠ 0 ∧ JS.len (chunks s) = k + 1))
    by (destruct (Z.eqb_spec pos 0); lia).
  clear Hcount.
  assert (Hnew : JS.len (if k <? JS.len (chunks s)
                         then store_at (chunks s) k bytes
                         else chunks s ++ [bytes]) = k + 1).
  { destruct (Z.ltb_spec k (JS.len (chunks s))).
    - rewrite len_store_at. lia.
    - rewrite len_app. unfold JS.len at 2. cbn. lia. }
  split_and!.
  - lia.
  - rewrite Hnew. symmetry. apply ceil_div_unique; [done|]. lia.
  - rewrite Hnew. intros i Hi.
    destruct (decide (i = k)) as [->|Hik].
    + rewrite owned_range_app_tail by lia.
      destruct (Z.ltb_spec k (JS.len (chunks s))).
      * rewrite index_store_at_eq by lia. by rewrite Hround, Htail.
      * assert (k = JS.len (chunks s)) by lia.
        subst k. rewrite index_push_eq. by rewrite Hround, Htail.
    + rewrite owned_range_app_full by nia.
      rewrite <- Hlines by lia.
      destruct (Z.ltb_spec k (JS.len (chunks s))).
      * by rewrite index_store_at_ne by lia.
      * by rewrite index_push_lt by lia.
Qed.

Lemma slice_0_take {A} (l : list A) (n : Z) :
  0 <= n <= JS.len l → JS.slice l 0 n = take (Z.to_nat n) l.
Proof.
  unfold JS.slice, JS.clamp, JS.len. intros Hn.
  destruct (Z.ltb_spec n 0); [lia|]. cbn [Z.ltb Z.compare].
  rewrite Z.min_l, Z.min_l by lia. by rewrite Z.sub_0_r.
Qed.

Lemma slice_from_drop {A} (l : list A) (n : Z) :
  0 <= n <= JS.len l → JS.slice_from l n = drop (Z.to_nat n) l.
Proof.
  unfold JS.slice_from, JS.clamp, JS.len. intros Hn.
  destruct (Z.ltb_spec n 0); [lia|]. by rewrite Z.min_l by lia.
Qed.

(** The loop of [appendChunkedLines], started on the chunk that is open
    for writing, ends and leaves a store that holds the document with the
    new lines behind it. *)
Lemma append_loop_persists (P : Platform) (fuel : nat) :
  ∀ (k pos : Z) (rem doc : list string) (w : World),
    Lossless P →
    0 < chunkSize (session w) → store_holds doc w →
    JS.len doc = k * chunkSize (session w) + pos →
    0 <= k → 0 <= pos < chunkSize (session w) →
    (length rem <= fuel)%nat →
    Forall no_newline doc → Forall no_newline rem →
    ∃ w',
      append_loop fuel k pos rem w = (Return (), w')
      ∧ store_holds (doc ++ rem) w'.
Proof.
  induction fuel as [|fuel IH];
    intros k pos rem doc w HP Hcs Hholds Hlen Hk Hpos Hfuel Hdoc Hrem.
  { destruct rem; [|cbn in Hfuel; lia]. exists w. cbn.
    by rewrite app_nil_r. }
  destruct rem as [|x rest].
  { exists w. cbn. by rewrite app_nil_r. }
  set (rem := x :: rest) in *.
  assert (Hrem1 : 0 < JS.len rem) by (unfold JS.len, rem; cbn; lia).
  assert (Hremne : rem ≠ []) by done.
  cbn [append_loop].
  destruct (Z.eqb_spec (JS.len rem) 0) as [?|_]; [lia|].
  erewrite (bind_run (read chunkSize)) by reflexivity. cbn beta.
  unfold compose.
  destruct (Z.leb_spec (JS.len rem) (chunkSize (session w) - pos))
    as [Hfit|Hmore].
  - erewrite bind_run by (by apply chunkLines_of_spec). cbn beta zeta.
    erewrite (bind_run (read totalLines)) by reflexivity.
    erewrite (bind_run (assign _)) by reflexivity.
    unfold compose. rewrite compressChunk_spec. eexists. split; [done|].
    by apply (store_holds_persist P doc rem k pos w).
  - erewrite bind_run by (by apply chunkLines_of_spec). cbn beta zeta.
    erewrite (bind_run (read totalLines)) by reflexivity.
    erewrite (bind_run (assign _)) by reflexivity.
    unfold compose. erewrite bind_run by apply compressChunk_spec.
    set (space := chunkSize (session w) - pos) in *.
    rewrite slice_0_take, slice_from_drop by lia.
    assert (Htake : JS.len (take (Z.to_nat space) rem) = space)
      by (unfold JS.len in *; rewrite length_take; lia).
    match goal with |- context [append_loop fuel _ _ _ ?w1] =>
      destruct (IH (k + 1) 0 (drop (Z.to_nat space) rem)
                  (doc ++ take (Z.to_nat space) rem) w1)
        as (w' & Hloop & Hholds')
    end.
    + done.
    + done.
    + apply (store_holds_persist P doc (take (Z.to_nat space) rem) k pos w);
        try done.
      * intros Hnil. rewrite Hnil in Htake. unfold JS.len in Htake.
        cbn in Htake. lia.
      * lia.
      * by apply Forall_take.
    + cbn. rewrite len_app, Htake. lia.
    + lia.
    + cbn. lia.
    + rewrite length_drop. unfold JS.len, rem, space in *.
      cbn [length] in *. lia.
    + apply Forall_app. split; [done|]. by apply Forall_take.
    + by apply Forall_drop.
    + exists w'. split; [done|].
      by rewrite <- app_assoc, take_drop in Hholds'.
Qed.

(** While the window is not on the chunk that is open for writing,
    [appendChunkedLines] persists every line it ingests: a store that
    holds the document holds the longer document afterwards, with
    [totalLines] its length and [chunkCount = ceil(totalLines / chunkSize)]. *)
Lemma append_elsewhere_persists (P : Platform) (doc newLines : list string)
    (skipRender : bool) (w : World) :
  Lossless P →
  0 < chunkSize (session w) → store_holds doc w →
  Forall no_newline doc → Forall no_newline newLines →
  currentChunkIndex (session w)
    ≠ totalLines (session w) / chunkSize (session w) →
  ∃ w',
    appendChunkedLines newLines skipRender w = (Return (), w')
    ∧ store_holds (doc ++ newLines) w'.
Proof.
  intros HP Hcs Hholds Hdoc Hnew Helsewhere.
  pose proof Hholds as (Htotal & _).
  assert (Hnonneg : 0 <= totalLines (session w))
    by (rewrite Htotal; unfold JS.len; lia).
  unfold appendChunkedLines, JS.floor_div, JS.remainder.
  erewrite (bind_run (read totalLines)) by reflexivity.
  erewrite (bind_run (read chunkSize)) by reflexivity.
  erewrite (bind_run (read currentChunkIndex)) by reflexivity.
  unfold compose. cbn beta zeta.
  destruct (Z.eqb_spec (totalLines (session w) / chunkSize (session w))
              (currentChunkIndex (session w))) as [Heq|_]; [congruence|].
  erewrite (bind_run (mret _)) by reflexivity. cbn beta iota zeta.
  destruct (append_loop_persists P (length newLines)
              (totalLines (session w) / chunkSize (session w))
              (Z.rem (totalLines (session w)) (chunkSize (session w)))
              newLines doc w) as (w' & Hloop & Hholds'); try done.
  - rewrite Z.rem_mod_nonneg by lia. rewrite <- Htotal.
    pose proof (Z.div_mod (totalLines (session w)) (chunkSize (session w))).
    lia.
  - apply Z.div_pos; lia.
  - by apply Z.rem_bound_pos.
  - erewrite bind_run by exact Hloop.
    destruct skipRender; eexists; (split; [reflexivity|]); [done|].
    destruct w' as [s' h' rs']. exact Hholds'.
Qed.

(** A session that was just activated holds the empty document. *)
Lemma activate_store_holds (P : Platform) (size : Z) (w w' : World) :
  activate size w = (Return (), w') →
  store_holds [] w'
  ∧ chunkSize (session w') = size
  ∧ currentChunkIndex (session w') = -1
  ∧ Viewport_size (host w') < size.
Proof.
  unfold activate. run.
  destruct (Z.geb_spec (Viewport_size (host w)) size); [done|].
  intros [= <-]. cbn. split_and!; try done.
  unfold store_holds, chunkCount, ceil_div, JS.len. cbn.
  split_and!; [done..|]. intros i Hi. lia.
Qed.

(** C4 (where the code departs from the claim): a session of chunk size 5
    is activated and painted once, which makes chunk 0 the current chunk
    of the window; two lines are then appended.  [totalLines] grows by 2,
    but the lines go to the resident buffer only: no chunk is written, and
    the chunk count is 0 where [ceil(2 / 5)] is 1. *)
Theorem append_to_resident_tail_chunk_count :
  first_append_run.1 = Return ()
  ∧ chunkSize (session first_append_run.2) = 5
  ∧ totalLines (session first_append_run.2) = 2
  ∧ buffer (session first_append_run.2) = ["a"; "b"]
  ∧ chunkCount first_append_run.2 = 0
  ∧ ceil_div (totalLines (session first_append_run.2))
      (chunkSize (session first_append_run.2)) = 1
  ∧ chunkCount first_append_run.2
    ≠ ceil_div (totalLines (session first_append_run.2))
        (chunkSize (session first_append_run.2)).
Proof. vm_compute. split_and!; try reflexivity. discriminate. Qed.

(** C2 (where the code departs from the claim): in a session of chunk
    size 5 two lines are appended, the viewer shows them (chunk 0 becomes
    the resident current buffer), and a third line is appended.  The third
    line is pushed on the resident buffer and counted, but chunk 0 is not
    written again: the store has one chunk, its owned range is the lines
    0 to 2 of the document, and decompressing it yields the first two
    lines only. *)
Theorem append_to_resident_tail_not_stored :
  resident_tail_run.1 = Return ["a"; "b"]
  ∧ chunkSize (session resident_tail_run.2) = 5
  ∧ totalLines (session resident_tail_run.2) = 3
  ∧ chunkCount resident_tail_run.2 = 1
  ∧ buffer (session resident_tail_run.2) = ["a"; "b"; "c"]
  ∧ @chunk_lines stored 0 resident_tail_run.2 = ["a"; "b"]
  ∧ @chunk_lines stored 0 resident_tail_run.2
    ≠ JS.slice (["a"; "b"] ++ ["c"]) (0 * 5) (Z.min ((0 + 1) * 5) 3).
Proof. vm_compute. split_and!; try reflexivity. discriminate. Qed.

(** What the missing write costs: the line appended to the resident
    buffer is counted, and gone once the window has moved away and back. *)
Lemma appended_line_is_lost :
  lost_line_run.1 = Return [""]
  ∧ totalLines (session lost_line_run.2) = 4
  ∧ (["a"] ++ ["b"] ++ ["c"; "d"]) !! 1%nat = Some "b"
  ∧ buffer (session lost_line_run.2) = ["a"].
Proof. vm_compute. by split_and!. Qed.

(** * Further properties of the code *)

(** ** Codec: lines that hold newlines *)

Lemma split_app_separator (c : ascii) (a b : string) :
  JS.split c (a +:+ String c b) = JS.split c a ++ JS.split c b.
Proof.
  induction a as [|x a IH].
  - change ("" +:+ String c b) with (String c b). cbn [JS.split].
    by rewrite Ascii.eqb_refl.
  - change (String x a +:+ String c b) with (String x (a +:+ String c b)).
    cbn [JS.split].
    destruct (Ascii.eqb x c); [by rewrite IH|].
    rewrite IH. pose proof (split_nonempty c a).
    by destruct (JS.split c a).
Qed.

Lemma split_join_concat (lines : list string) :
  lines ≠ [] →
  JS.split JS.newline (JS.join (String JS.newline "") lines)
  = concat (JS.split JS.newline <$> lines).
Proof.
  induction lines as [|l rest IH]; [done|]. intros _.
  destruct rest as [|l' rest'].
  - cbn. by rewrite app_nil_r.
  - change (JS.join _ (l :: l' :: rest'))
      with (l +:+ String JS.newline (JS.join (String JS.newline "") (l' :: rest'))).
    rewrite split_app_separator, IH by done. done.
Qed.

(** X10: on a lossless platform, compressing a non-empty sequence of lines
    and decompressing the result gives every line back split at its
    newline characters, in order: a line with [n] embedded newlines comes
    back as [n + 1] lines, which shifts the lines behind it. *)
Theorem roundtrip_splits_at_newlines (P : Platform) (HP : Lossless P)
    (lines : list string) :
  lines ≠ [] →
  decompress (compress lines) = concat (JS.split JS.newline <$> lines).
Proof.
  intros Hne. unfold decompress, compress. rewrite lossless.
  by apply split_join_concat.
Qed.

Lemma roundtrip_splits_at_newlines_witness :
  Lossless stored
  ∧ ["a" +:+ String JS.newline "b"; "c"] ≠ []
  ∧ @decompress stored
      (@compress stored ["a" +:+ String JS.newline "b"; "c"])
    = ["a"; "b"; "c"].
Proof.
  assert (Hne : ["a" +:+ String JS.newline "b"; "c"] ≠ @nil string)
    by discriminate.
  split; [exact stored_lossless|]. split; [exact Hne|].
  exact (roundtrip_splits_at_newlines stored stored_lossless _ Hne).
Defined.

(** ** Chunk store: writing and reading back *)

Lemma index_push_gt {A} (l : list A) (x : A) (i : Z) :
  JS.len l < i → JS.index (l ++ [x]) i = None.
Proof.
  unfold JS.index, JS.len. intros Hi.
  destruct (Z.ltb_spec i 0); [done|]. apply lookup_ge_None.
  rewrite length_app. cbn. lia.
Qed.

(** X14: [compressChunk(k, lines)] for [k >= 0] overwrites chunk [k] when
    it exists and appends a chunk otherwise -- at the end of the store,
    also when [k] lies beyond it.  On a lossless platform, for non-empty
    lines without newlines, [decompressChunk] of that position gives the
    lines back; every other chunk is as before, and the store grows by at
    most one chunk. *)
Theorem write_then_read_chunk (P : Platform) (HP : Lossless P) (k : Z)
    (lines : list string) (w : World) :
  0 <= k → lines ≠ [] → Forall no_newline lines →
  ∃ w',
    compressChunk k lines w = (Return (), w')
    ∧ chunkCount w' = Z.max (chunkCount w) (Z.min k (chunkCount w) + 1)
    ∧ decompressChunk (Z.min k (chunkCount w)) w' = (Return lines, w')
    ∧ ∀ i, i ≠ Z.min k (chunkCount w) → chunk_lines i w' = chunk_lines i w.
Proof.
  intros Hk Hne Hnl. rewrite compressChunk_spec. eexists. split; [done|].
  destruct w as [s h rs]. unfold chunkCount, chunk_lines. cbn.
  pose proof (decompress_compress P lines HP Hne Hnl) as Hround.
  destruct (Z.ltb_spec k (JS.len (chunks s))) as [Hin|Hout].
  - rewrite Z.min_l by lia. rewrite len_store_at. split_and!.
    + lia.
    + rewrite decompressChunk_in_bounds
        by (unfold chunkCount; cbn; rewrite len_store_at; lia).
      unfold chunk_lines. cbn.
      by rewrite index_store_at_eq, Hround by lia.
    + intros i Hi. by rewrite index_store_at_ne.
  - rewrite Z.min_r by lia. rewrite len_app. split_and!.
    + unfold JS.len at 2. cbn. lia.
    + rewrite decompressChunk_in_bounds
        by (unfold chunkCount; cbn; rewrite len_app; unfold JS.len; cbn; lia).
      unfold chunk_lines. cbn. by rewrite index_push_eq, Hround.
    + intros i Hi.
      destruct (Z.ltb_spec i (JS.len (chunks s))).
      * by rewrite index_push_lt.
      * rewrite index_push_gt by lia.
        by rewrite index_out_of_bounds by (right; lia).
Qed.

Lemma write_then_read_chunk_witness :
  Lossless stored ∧ 0 <= 9 ∧ ["x"; "y"] ≠ [] ∧ Forall no_newline ["x"; "y"]
  ∧ ∃ w',
      @compressChunk stored 9 ["x"; "y"] seven_lines_world = (Return (), w')
      ∧ chunkCount w' = 5
      ∧ @decompressChunk stored 4 w' = (Return ["x"; "y"], w').
Proof.
  assert (H1 : 0 <= 9) by lia.
  assert (H2 : ["x"; "y"] ≠ @nil string) by discriminate.
  assert (H3 : Forall no_newline ["x"; "y"])
    by (apply (bool_decide_unpack _); vm_compute; exact I).
  split; [exact stored_lossless|]. split; [exact H1|]. split; [exact H2|].
  split; [exact H3|].
  destruct (write_then_read_chunk stored stored_lossless 9 ["x"; "y"]
              seven_lines_world H1 H2 H3) as (w' & Hw & Hcount & Hread & _).
  exists w'. split; [exact Hw|]. split; [exact Hcount|exact Hread].
Defined.

(** ** Ingestion: what an append changes *)

Lemma chunkLines_of_world (P : Platform) (k : Z) (w : World) :
  ∃ o, chunkLines_of k w = (o, w).
Proof.
  unfold chunkLines_of, decompressChunk, decompressChunk_call,
    decompressChunk_settle.
  run. repeat case_match; by eexists.
Qed.

Lemma same_window_refl (w : World) : same_window w w.
Proof. by unfold same_window. Qed.

Lemma same_window_trans (w1 w2 w3 : World) :
  same_window w1 w2 → same_window w2 w3 → same_window w1 w3.
Proof. unfold same_window. intros. destruct_and!. split_and!; congruence. Qed.

(** The loop writes [chunks] and [totalLines] only. *)
Lemma append_loop_window (P : Platform) (fuel : nat) :
  ∀ (k pos : Z) (rem : list string) (w : World),
    ∃ o w', append_loop fuel k pos rem w = (o, w') ∧ same_window w w'.
Proof.
  induction fuel as [|fuel IH]; intros k pos rem w.
  { cbn. destruct (JS.len rem =? 0); do 2 eexists;
      (split; [reflexivity|apply same_window_refl]). }
  cbn [append_loop]. destruct (JS.len rem =? 0).
  { do 2 eexists. split; [reflexivity|apply same_window_refl]. }
  erewrite (bind_run (read chunkSize)) by reflexivity. cbn beta.
  unfold compose.
  destruct (chunkLines_of_world P k w) as [o Ho].
  destruct (JS.len rem <=? chunkSize (session w) - pos).
  - unfold mbind, M_bind at 1. rewrite Ho.
    destruct o as [chunkLines| |];
      [|do 2 eexists; (split; [reflexivity|apply same_window_refl])..].
    cbn beta zeta.
    erewrite (bind_run (read totalLines)) by reflexivity.
    erewrite (bind_run (assign _)) by reflexivity.
    rewrite compressChunk_spec. do 2 eexists. split; [reflexivity|].
    by unfold same_window.
  - unfold mbind, M_bind at 1. rewrite Ho.
    destruct o as [chunkLines| |];
      [|do 2 eexists; (split; [reflexivity|apply same_window_refl])..].
    cbn beta zeta.
    erewrite (bind_run (read totalLines)) by reflexivity.
    erewrite (bind_run (assign _)) by reflexivity.
    erewrite bind_run by apply compressChunk_spec.
    match goal with |- context [append_loop fuel ?k1 ?p1 ?r1 ?w1] =>
      destruct (IH k1 p1 r1 w1) as (o' & w' & -> & Hsame)
    end.
    exists o', w'. split; [done|].
    eapply same_window_trans; [|exact Hsame]. by unfold same_window.
Qed.

(** What [appendChunkedLines] does to the session: it adds the number of
    the new lines to [totalLines]; it pushes lines on [buffer] when the
    chunk open for writing is the current chunk of the window, and leaves
    [buffer] alone otherwise; it never touches the other two buffers, the
    current chunk index, the chunk size, the [enabled] flag or the
    suspended reloads. *)
Lemma appendChunkedLines_effect (P : Platform) (newLines : list string)
    (skipRender : bool) (w : World) :
  0 < chunkSize (session w) → 0 <= totalLines (session w) →
  ∃ w',
    appendChunkedLines newLines skipRender w = (Return (), w')
    ∧ totalLines (session w') = totalLines (session w) + JS.len newLines
    ∧ buffer (session w')
      = (if totalLines (session w) / chunkSize (session w)
            =? currentChunkIndex (session w)
         then buffer (session w)
              ++ JS.slice newLines 0
                   (chunkSize (session w) - JS.len (buffer (session w)))
         else buffer (session w))
    ∧ prevBuffer (session w') = prevBuffer (session w)
    ∧ nextBuffer (session w') = nextBuffer (session w)
    ∧ currentChunkIndex (session w') = currentChunkIndex (session w)
    ∧ chunkSize (session w') = chunkSize (session w)
    ∧ enabled (session w') = enabled (session w)
    ∧ reloads w' = reloads w.
Proof.
  intros Hcs Htotal. unfold appendChunkedLines, JS.floor_div, JS.remainder.
  erewrite (bind_run (read totalLines)) by reflexivity.
  erewrite (bind_run (read chunkSize)) by reflexivity.
  erewrite (bind_run (read currentChunkIndex)) by reflexivity.
  unfold compose. cbn beta zeta.
  assert (Hk : 0 <= totalLines (session w) / chunkSize (session w))
    by (apply Z.div_pos; lia).
  pose proof (Z.rem_bound_pos (totalLines (session w))
                (chunkSize (session w)) Htotal Hcs) as Hpos.
  destruct (totalLines (session w) / chunkSize (session w)
            =? currentChunkIndex (session w)).
  - erewrite (bind_run (read buffer ≫= _)) by reflexivity.
    cbn beta iota zeta. unfold compose.
    match goal with |- context [(append_loop ?f ?k ?pos ?rem ≫= _) ?w1] =>
      destruct (append_loop_total P f k pos rem w1)
        as (w2 & Hloop & Htotal2 & _); [lia|cbn; lia|lia|];
      destruct (append_loop_window P f k pos rem w1)
        as (o & w2' & Hloop' & Hsame)
    end.
    rewrite Hloop in Hloop'. injection Hloop' as <- <-.
    erewrite bind_run by exact Hloop.
    pose proof (len_slices newLines
                  (chunkSize (session w) - JS.len (buffer (session w)))).
    unfold same_window in Hsame. cbn in Htotal2, Hsame. destruct_and!.
    destruct skipRender; eexists; (split; [reflexivity|]); cbn;
      split_and!; (done || lia).
  - erewrite (bind_run (mret _)) by reflexivity. cbn beta iota zeta.
    destruct (append_loop_total P (length newLines)
                (totalLines (session w) / chunkSize (session w))
                (Z.rem (totalLines (session w)) (chunkSize (session w)))
                newLines w) as (w2 & Hloop & Htotal2 & _); [lia..|].
    destruct (append_loop_window P (length newLines)
                (totalLines (session w) / chunkSize (session w))
                (Z.rem (totalLines (session w)) (chunkSize (session w)))
                newLines w) as (o & w2' & Hloop' & Hsame).
    rewrite Hloop in Hloop'. injection Hloop' as <- <-.
    erewrite bind_run by exact Hloop.
    unfold same_window in Hsame. destruct_and!.
    destruct skipRender; eexists; (split; [reflexivity|]); cbn;
      split_and!; (done || lia).
Qed.

(** X1: in a session with a positive chunk size and a total that is not
    negative, [appendChunkedLines] ends without a throw, whichever chunk
    the window holds, and adds exactly the number of the new lines to
    [totalLines]; it never changes the current chunk index, the chunk
    size, the [enabled] flag, the previous and next buffers or the
    reloads in flight. *)
Theorem append_adds_exactly (P : Platform) (newLines : list string)
    (skipRender : bool) (w : World) :
  0 < chunkSize (session w) → 0 <= totalLines (session w) →
  ∃ w',
    appendChunkedLines newLines skipRender w = (Return (), w')
    ∧ totalLines (session w') = totalLines (session w) + JS.len newLines
    ∧ currentChunkIndex (session w') = currentChunkIndex (session w)
    ∧ chunkSize (session w') = chunkSize (session w)
    ∧ enabled (session w') = enabled (session w)
    ∧ prevBuffer (session w') = prevBuffer (session w)
    ∧ nextBuffer (session w') = nextBuffer (session w)
    ∧ reloads w' = reloads w.
Proof.
  intros Hcs Htotal.
  destruct (appendChunkedLines_effect P newLines skipRender w Hcs Htotal)
    as (w' & Hrun & ? & _ & ? & ? & ? & ? & ? & ?).
  exists w'. by split_and!.
Qed.

Lemma append_adds_exactly_witness :
  0 < chunkSize (session seven_lines_world)
  ∧ 0 <= totalLines (session seven_lines_world)
  ∧ ∃ w',
      @appendChunkedLines stored ["h"; "i"; "j"] false seven_lines_world
      = (Return (), w')
      ∧ totalLines (session w')
        = totalLines (session seven_lines_world) + JS.len ["h"; "i"; "j"].
Proof.
  assert (H1 : 0 < chunkSize (session seven_lines_world))
    by (vm_compute; reflexivity).
  assert (H2 : 0 <= totalLines (session seven_lines_world))
    by (vm_compute; discriminate).
  split; [exact H1|]. split; [exact H2|].
  destruct (append_adds_exactly stored ["h"; "i"; "j"] false
              seven_lines_world H1 H2) as (w' & Hrun & Htotal & _).
  exists w'. split; [exact Hrun|exact Htotal].
Defined.

Lemma held_within_grows (w w' : World) (k : Z) (b : list string) :
  chunkSize (session w') = chunkSize (session w) →
  totalLines (session w) <= totalLines (session w') →
  held_within w k b → held_within w' k b.
Proof.
  unfold held_within. intros Hcs Htotal Hheld j Hj.
  specialize (Hheld j Hj). lia.
Qed.

(** X9: [appendChunkedLines] keeps the resident buffers within the
    document: when every line that the three buffers hold is a line of
    the document before the call ([within_document]), the same is true
    after it, also when the call pushes lines on the current buffer. *)
Theorem append_keeps_window_within_document (P : Platform)
    (newLines : list string) (skipRender : bool) (w : World) :
  0 < chunkSize (session w) → 0 <= totalLines (session w) →
  within_document w →
  ∃ w',
    appendChunkedLines newLines skipRender w = (Return (), w')
    ∧ within_document w'.
Proof.
  intros Hcs Htotal (Hprev & Hcur & Hnext).
  destruct (appendChunkedLines_effect P newLines skipRender w Hcs Htotal)
    as (w' & Hrun & Ht & Hb & Hp & Hn & Hc & Hs & _).
  exists w'. split; [done|]. unfold within_document.
  rewrite Hp, Hn, Hc.
  assert (Hgrow : totalLines (session w) <= totalLines (session w'))
    by (rewrite Ht; unfold JS.len; lia).
  split_and!; [apply (held_within_grows w); (done || lia)| |
               apply (held_within_grows w); (done || lia)].
  rewrite Hb.
  destruct (Z.eqb_spec (totalLines (session w) / chunkSize (session w))
              (currentChunkIndex (session w))) as [Hres|_];
    [|apply (held_within_grows w); (done || lia)].
  intros j Hj. apply index_is_Some in Hj. rewrite len_app in Hj.
  rewrite Hs, Ht.
  pose proof (len_slices newLines
                (chunkSize (session w) - JS.len (buffer (session w)))).
  pose proof (clamp_bounds (JS.slice_from newLines
                (chunkSize (session w) - JS.len (buffer (session w)))) 0).
  assert (Hroom : currentChunkIndex (session w) * chunkSize (session w)
                  + JS.len (buffer (session w)) <= totalLines (session w)).
  { destruct (decide (JS.len (buffer (session w)) = 0)) as [->|Hne].
    - rewrite <- Hres. pose proof (Z.mul_div_le (totalLines (session w))
                                     (chunkSize (session w)) Hcs). lia.
    - assert (Hlast : is_Some (JS.index (buffer (session w))
                                  (JS.len (buffer (session w)) - 1)))
        by (apply index_in_bounds; unfold JS.len in *; lia).
      specialize (Hcur _ Hlast). lia. }
  unfold JS.len in *. lia.
Qed.

Lemma seven_lines_within_document : within_document seven_lines_world.
Proof.
  unfold within_document, held_within.
  change (currentChunkIndex (session seven_lines_world)) with 0.
  change (chunkSize (session seven_lines_world)) with 2.
  change (totalLines (session seven_lines_world)) with 7.
  change (prevBuffer (session seven_lines_world)) with (@nil string).
  change (buffer (session seven_lines_world)) with ["a"; "b"].
  change (nextBuffer (session seven_lines_world)) with ["c"; "d"].
  split_and!; intros j Hj; apply index_is_Some in Hj;
    unfold JS.len in Hj; cbn in Hj; lia.
Defined.

Lemma append_keeps_window_within_document_witness :
  0 < chunkSize (session seven_lines_world)
  ∧ 0 <= totalLines (session seven_lines_world)
  ∧ within_document seven_lines_world
  ∧ ∃ w',
      @appendChunkedLines stored ["more"] true seven_lines_world
      = (Return (), w')
      ∧ within_document w'.
Proof.
  assert (H1 : 0 < chunkSize (session seven_lines_world))
    by (vm_compute; reflexivity).
  assert (H2 : 0 <= totalLines (session seven_lines_world))
    by (vm_compute; discriminate).
  split; [exact H1|]. split; [exact H2|].
  split; [exact seven_lines_within_document|].
  exact (append_keeps_window_within_document stored ["more"] true
           seven_lines_world H1 H2 seven_lines_within_document).
Defined.

Lemma slice_0_all {A} (l : list A) (n : Z) :
  JS.len l <= n → JS.slice l 0 n = l.
Proof.
  unfold JS.slice, JS.clamp, JS.len. intros Hn.
  destruct (Z.ltb_spec n 0); [lia|]. cbn [Z.ltb Z.compare].
  rewrite (Z.min_l 0), (Z.min_r n) by lia. rewrite Z.sub_0_r, Nat2Z.id.
  apply take_ge. cbn. lia.
Qed.

Lemma slice_from_all {A} (l : list A) (n : Z) :
  JS.len l <= n → JS.slice_from l n = [].
Proof.
  unfold JS.slice_from, JS.clamp, JS.len. intros Hn.
  destruct (Z.ltb_spec n 0); [lia|]. rewrite Z.min_r by lia.
  apply drop_ge. lia.
Qed.

(** X15: when the chunk open for writing is the current chunk of the
    window and the new lines fit in what is left of the chunk size behind
    the resident buffer, [appendChunkedLines] pushes all of them on
    [buffer] and counts them, and does nothing else to the session: no
    chunk is written, read or added, and the call renders unless told to
    skip. *)
Theorem append_to_resident_buffer (P : Platform) (newLines : list string)
    (skipRender : bool) (w : World) :
  0 < chunkSize (session w) →
  totalLines (session w) / chunkSize (session w)
    = currentChunkIndex (session w) →
  JS.len (buffer (session w)) + JS.len newLines <= chunkSize (session w) →
  appendChunkedLines newLines skipRender w
  = (Return (),
     (if skipRender then id else on_host count_render)
       (on_session (set_totalLines (totalLines (session w) + JS.len newLines))
          (on_session (set_buffer (buffer (session w) ++ newLines)) w))).
Proof.
  intros _ Hres Hfit.
  unfold appendChunkedLines, JS.floor_div, JS.remainder.
  erewrite (bind_run (read totalLines)) by reflexivity.
  erewrite (bind_run (read chunkSize)) by reflexivity.
  erewrite (bind_run (read currentChunkIndex)) by reflexivity.
  unfold compose. cbn beta zeta. rewrite Hres, Z.eqb_refl.
  erewrite (bind_run (read buffer ≫= _)) by reflexivity.
  cbn beta iota zeta. unfold compose.
  rewrite slice_0_all, slice_from_all by lia.
  cbn [length append_loop]. change (JS.len [] =? 0) with true. cbn iota.
  by destruct skipRender.
Qed.

Lemma append_to_resident_buffer_witness :
  0 < chunkSize (session painted_world)
  ∧ totalLines (session painted_world) / chunkSize (session painted_world)
    = currentChunkIndex (session painted_world)
  ∧ JS.len (buffer (session painted_world)) + JS.len ["a"; "b"]
    <= chunkSize (session painted_world)
  ∧ buffer (session
      (@appendChunkedLines stored ["a"; "b"] true painted_world).2)
    = ["a"; "b"]
  ∧ chunks (session
      (@appendChunkedLines stored ["a"; "b"] true painted_world).2)
    = [].
Proof.
  assert (H1 : totalLines (session painted_world)
               / chunkSize (session painted_world)
               = currentChunkIndex (session painted_world))
    by (vm_compute; reflexivity).
  assert (H2 : JS.len (buffer (session painted_world)) + JS.len ["a"; "b"]
               <= chunkSize (session painted_world))
    by (vm_compute; discriminate).
  assert (H0 : 0 < chunkSize (session painted_world))
    by (vm_compute; reflexivity).
  split; [exact H0|]. split; [exact H1|]. split; [exact H2|].
  rewrite (append_to_resident_buffer stored ["a"; "b"] true painted_world
             H0 H1 H2).
  split; reflexivity.
Defined.

(** X2: while the window is not on the chunk that is open for writing,
    [appendChunkedLines] persists every line it ingests.  On a lossless
    platform, for lines without newlines: when the store holds the
    document before the call ([totalLines] is its length, there are
    [ceil(totalLines / chunkSize)] chunks and chunk [i] decompresses to
    the lines from [i * chunkSize] up to [(i + 1) * chunkSize] or the
    end), it holds the document with the new lines behind it after the
    call. *)
Theorem append_persists_while_window_elsewhere (P : Platform)
    (HP : Lossless P) (doc newLines : list string) (skipRender : bool)
    (w : World) :
  0 < chunkSize (session w) → store_holds doc w →
  Forall no_newline doc → Forall no_newline newLines →
  currentChunkIndex (session w)
    ≠ totalLines (session w) / chunkSize (session w) →
  ∃ w',
    appendChunkedLines newLines skipRender w = (Return (), w')
    ∧ store_holds (doc ++ newLines) w'.
Proof. by apply append_elsewhere_persists. Qed.

Lemma seven_lines_store_holds :
  @store_holds stored ["a"; "b"; "c"; "d"; "e"; "f"; "g"] seven_lines_world.
Proof.
  unfold store_holds. split_and!; [reflexivity..|].
  change (chunkCount seven_lines_world) with 4. intros i Hi.
  assert (Hcases : i = 0 ∨ i = 1 ∨ i = 2 ∨ i = 3) by lia.
  destruct Hcases as [->|[->|[->| ->]]]; reflexivity.
Defined.

Lemma append_persists_while_window_elsewhere_witness :
  Lossless stored
  ∧ 0 < chunkSize (session seven_lines_world)
  ∧ @store_holds stored ["a"; "b"; "c"; "d"; "e"; "f"; "g"] seven_lines_world
  ∧ Forall no_newline ["a"; "b"; "c"; "d"; "e"; "f"; "g"]
  ∧ Forall no_newline ["h"; "i"]
  ∧ currentChunkIndex (session seven_lines_world)
    ≠ totalLines (session seven_lines_world)
      / chunkSize (session seven_lines_world)
  ∧ ∃ w',
      @appendChunkedLines stored ["h"; "i"] true seven_lines_world
      = (Return (), w')
      ∧ @store_holds stored
          (["a"; "b"; "c"; "d"; "e"; "f"; "g"] ++ ["h"; "i"]) w'.
Proof.
  assert (H1 : 0 < chunkSize (session seven_lines_world))
    by (vm_compute; reflexivity).
  assert (H2 : Forall no_newline ["a"; "b"; "c"; "d"; "e"; "f"; "g"])
    by (apply (bool_decide_unpack _); vm_compute; exact I).
  assert (H3 : Forall no_newline ["h"; "i"])
    by (apply (bool_decide_unpack _); vm_compute; exact I).
  assert (H4 : currentChunkIndex (session seven_lines_world)
               ≠ totalLines (session seven_lines_world)
                 / chunkSize (session seven_lines_world))
    by (vm_compute; discriminate).
  split; [exact stored_lossless|]. split; [exact H1|].
  split; [exact seven_lines_store_holds|]. split; [exact H2|].
  split; [exact H3|]. split; [exact H4|].
  exact (append_persists_while_window_elsewhere stored stored_lossless
           _ _ true seven_lines_world H1 seven_lines_store_holds H2 H3 H4).
Defined.

(** ** Loading a document batch by batch *)

Lemma getChunkedLines_hit (w : World) :
  currentChunkIndex (session w)
    = Viewport_start (host w) / chunkSize (session w) →
  ∃ lines, getChunkedLines w = (Return lines, w).
Proof.
  intros Hhit. unfold getChunkedLines, JS.floor_div. run.
  rewrite Hhit, Z.eqb_refl. cbn. by eexists.
Qed.

(** A repaint of a window that is on the viewport's chunk changes
    nothing. *)
Lemma repaint_hit (w : World) :
  currentChunkIndex (session w)
    = Viewport_start (host w) / chunkSize (session w) →
  repaint w = (Return (), w).
Proof.
  intros Hhit. unfold repaint.
  erewrite (bind_run (viewer Viewport_lines)) by reflexivity.
  unfold compose. destruct (Viewport_lines (host w)); [done|].
  destruct (getChunkedLines_hit w Hhit) as [lines Hlines].
  by erewrite bind_run by exact Hlines.
Qed.

(** An append leaves the viewer alone, but for the render it asks for. *)
Lemma appendChunkedLines_host (P : Platform) (newLines : list string)
    (skipRender : bool) (w : World) :
  0 < chunkSize (session w) → 0 <= totalLines (session w) →
  host (appendChunkedLines newLines skipRender w).2
  = (if skipRender then host w else count_render (host w)).
Proof.
  intros Hcs Htotal. unfold appendChunkedLines, JS.floor_div, JS.remainder.
  erewrite (bind_run (read totalLines)) by reflexivity.
  erewrite (bind_run (read chunkSize)) by reflexivity.
  erewrite (bind_run (read currentChunkIndex)) by reflexivity.
  unfold compose. cbn beta zeta.
  assert (Hk : 0 <= totalLines (session w) / chunkSize (session w))
    by (apply Z.div_pos; lia).
  pose proof (Z.rem_bound_pos (totalLines (session w))
                (chunkSize (session w)) Htotal Hcs) as Hpos.
  destruct (totalLines (session w) / chunkSize (session w)
            =? currentChunkIndex (session w)).
  - erewrite (bind_run (read buffer ≫= _)) by reflexivity.
    cbn beta iota zeta. unfold compose.
    match goal with |- context [(append_loop ?f ?k ?pos ?rem ≫= _) ?w1] =>
      destruct (append_loop_total P f k pos rem w1)
        as (w2 & Hloop & _ & _ & Hhost); [lia|cbn; lia|lia|]
    end.
    erewrite bind_run by exact Hloop. cbn in Hhost.
    destruct skipRender; cbn; by rewrite Hhost.
  - erewrite (bind_run (mret _)) by reflexivity. cbn beta iota zeta.
    destruct (append_loop_total P (length newLines)
                (totalLines (session w) / chunkSize (session w))
                (Z.rem (totalLines (session w)) (chunkSize (session w)))
                newLines w) as (w2 & Hloop & _ & _ & Hhost); [lia..|].
    erewrite bind_run by exact Hloop.
    destruct skipRender; cbn; by rewrite Hhost.
Qed.

(** While the window is on the viewport's chunk and that chunk lies below
    the one open for writing, no append takes the resident buffer, no
    repaint moves the window, and a run of appends keeps the store in
    step. *)
Lemma load_persists (P : Platform) (HP : Lossless P)
    (batches : list (list string)) (skipRender : bool) :
  ∀ (doc : list string) (w : World),
    0 < chunkSize (session w) → store_holds doc w →
    currentChunkIndex (session w)
      = Viewport_start (host w) / chunkSize (session w) →
    currentChunkIndex (session w)
      < totalLines (session w) / chunkSize (session w) →
    enabled (session w) = true →
    Forall no_newline doc → Forall (Forall no_newline) batches →
    ∃ w',
      load batches skipRender w = (Return (), w')
      ∧ store_holds (doc ++ concat batches) w'
      ∧ currentChunkIndex (session w') = currentChunkIndex (session w)
      ∧ same_window w w'.
Proof.
  induction batches as [|batch rest IH];
    intros doc w Hcs Hholds Hhit Hbelow Hon Hdoc Hbatches.
  { exists w. cbn. rewrite app_nil_r. by split_and!. }
  apply Forall_cons in Hbatches as [Hbatch Hrest].
  pose proof Hholds as (Htotal & _).
  assert (Hnonneg : 0 <= totalLines (session w))
    by (rewrite Htotal; unfold JS.len; lia).
  destruct (append_elsewhere_persists P doc batch skipRender w)
    as (w1 & Hrun & Hholds1); [done..|lia|].
  destruct (appendChunkedLines_effect P batch skipRender w Hcs Hnonneg)
    as (w1' & Hrun' & Htotal1 & Hbuf1 & Hprev1 & Hnext1 & Hcur1 & Hcs1
        & Hon1 & Hrel1).
  rewrite Hrun in Hrun'. injection Hrun' as <-.
  pose proof (appendChunkedLines_host P batch skipRender w Hcs Hnonneg)
    as Hhost1.
  rewrite Hrun in Hhost1. cbn [snd] in Hhost1.
  assert (Hstart1 : Viewport_start (host w1) = Viewport_start (host w))
    by (rewrite Hhost1; by destruct skipRender).
  assert (Hhit1 : currentChunkIndex (session w1)
                  = Viewport_start (host w1) / chunkSize (session w1))
    by (rewrite Hcur1, Hstart1, Hcs1; done).
  assert (Hgrow : totalLines (session w) / chunkSize (session w)
                  <= totalLines (session w1) / chunkSize (session w1)).
  { rewrite Hcs1, Htotal1. apply Z.div_le_mono; [done|].
    unfold JS.len. lia. }
  assert (Hbuf1' : buffer (session w1) = buffer (session w)).
  { rewrite Hbuf1.
    destruct (Z.eqb_spec (totalLines (session w) / chunkSize (session w))
                (currentChunkIndex (session w))); [lia|done]. }
  destruct (IH (doc ++ batch) w1)
    as (w' & Hload & Hholds' & Hcur' & Hsame');
    [lia|done|done|lia|congruence|by apply Forall_app|done|].
  exists w'. split_and!.
  - assert (Happ : appendLines batch skipRender w = (Return (), w1)).
    { unfold appendLines.
      erewrite (bind_run (read enabled)) by reflexivity.
      unfold compose. by rewrite Hon. }
    assert (Hpaint : (if negb skipRender then repaint else mret ()) w1
                     = (Return (), w1))
      by (destruct skipRender; [done|by apply repaint_hit]).
    cbn [load]. erewrite bind_run by exact Happ.
    by erewrite bind_run by exact Hpaint.
  - cbn [concat]. by rewrite app_assoc.
  - congruence.
  - eapply same_window_trans; [|exact Hsame'].
    unfold same_window. by split_and!.
Qed.

(** X3: loading goes on persisting while the viewer stays on a chunk
    below the one that is open for writing.  In an active session whose
    store holds the document and whose window is on the viewport's chunk,
    that chunk lying below [floor(totalLines / chunkSize)]: when batches
    are appended one after the other, the viewer repainting behind every
    call that rendered, no call throws, the window stays as it is, and
    afterwards the store holds the document with all the batches behind
    it -- [totalLines] is its length, there are
    [ceil(totalLines / chunkSize)] chunks and every chunk decompresses to
    the lines it owns (lossless platform, lines without newlines). *)
Theorem load_persists_while_viewer_below_tail (P : Platform)
    (HP : Lossless P) (doc : list string) (batches : list (list string))
    (skipRender : bool) (w : World) :
  0 < chunkSize (session w) → store_holds doc w →
  enabled (session w) = true →
  currentChunkIndex (session w)
    = Viewport_start (host w) / chunkSize (session w) →
  currentChunkIndex (session w)
    < totalLines (session w) / chunkSize (session w) →
  Forall no_newline doc → Forall (Forall no_newline) batches →
  ∃ w',
    load batches skipRender w = (Return (), w')
    ∧ store_holds (doc ++ concat batches) w'
    ∧ same_window w w'.
Proof.
  intros Hcs Hholds Hon Hhit Hbelow Hdoc Hbatches.
  destruct (load_persists P HP batches skipRender doc w)
    as (w' & Hload & Hholds' & _ & Hsame); try done.
  by exists w'.
Qed.

Lemma load_persists_while_viewer_below_tail_witness :
  Lossless stored
  ∧ 0 < chunkSize (session seven_lines_world)
  ∧ @store_holds stored ["a"; "b"; "c"; "d"; "e"; "f"; "g"] seven_lines_world
  ∧ enabled (session seven_lines_world) = true
  ∧ currentChunkIndex (session seven_lines_world)
    = Viewport_start (host seven_lines_world)
      / chunkSize (session seven_lines_world)
  ∧ currentChunkIndex (session seven_lines_world)
    < totalLines (session seven_lines_world)
      / chunkSize (session seven_lines_world)
  ∧ Forall no_newline ["a"; "b"; "c"; "d"; "e"; "f"; "g"]
  ∧ Forall (Forall no_newline) [["h"]; ["i"; "j"]]
  ∧ ∃ w',
      @load stored [["h"]; ["i"; "j"]] false seven_lines_world
      = (Return (), w')
      ∧ @store_holds stored
          (["a"; "b"; "c"; "d"; "e"; "f"; "g"] ++ concat [["h"]; ["i"; "j"]])
          w'
      ∧ same_window seven_lines_world w'.
Proof.
  assert (H1 : 0 < chunkSize (session seven_lines_world))
    by (vm_compute; reflexivity).
  assert (H2 : enabled (session seven_lines_world) = true) by reflexivity.
  assert (H3 : currentChunkIndex (session seven_lines_world)
               = Viewport_start (host seven_lines_world)
                 / chunkSize (session seven_lines_world))
    by (vm_compute; reflexivity).
  assert (H4 : currentChunkIndex (session seven_lines_world)
               < totalLines (session seven_lines_world)
                 / chunkSize (session seven_lines_world))
    by (vm_compute; reflexivity).
  assert (H5 : Forall no_newline ["a"; "b"; "c"; "d"; "e"; "f"; "g"])
    by (apply (bool_decide_unpack _); vm_compute; exact I).
  assert (H6 : Forall (Forall no_newline) [["h"]; ["i"; "j"]])
    by (apply (bool_decide_unpack _); vm_compute; exact I).
  split; [exact stored_lossless|]. split; [exact H1|].
  split; [exact seven_lines_store_holds|]. split; [exact H2|].
  split; [exact H3|]. split; [exact H4|]. split; [exact H5|].
  split; [exact H6|].
  exact (load_persists_while_viewer_below_tail stored stored_lossless
           _ _ false seven_lines_world H1 seven_lines_store_holds
           H2 H3 H4 H5 H6).
Defined.

(** ** Window manager: what a loaded window shows *)

Lemma index_owned_range (chunkSize : Z) (doc : list string) (k j : Z) :
  0 < chunkSize → 0 <= k → 0 <= j < chunkSize →
  JS.index (owned_range chunkSize doc k) j = JS.index doc (k * chunkSize + j).
Proof.
  intros Hcs Hk Hj. unfold owned_range, JS.index.
  destruct (Z.ltb_spec j 0); [lia|].
  destruct (Z.ltb_spec (k * chunkSize + j) 0); [nia|].
  rewrite lookup_take_lt by lia. rewrite lookup_drop. f_equal. nia.
Qed.

Lemma ceil_div_covers (a b : Z) : 0 < b → a <= ceil_div a b * b.
Proof.
  intros Hb. unfold ceil_div.
  pose proof (Z.div_mod (- a) b ltac:(lia)).
  pose proof (Z.mod_pos_bound (- a) b Hb). nia.
Qed.

(** With the store in step with the document and the window loaded for
    chunk [k], the loop body of [getChunkedLines] finds the document's
    line for every position in chunk [k] or [k + 1], and the empty string
    where the document has ended. *)
Lemma line_at_document (P : Platform) (doc : list string) (w : World)
    (k i : Z) :
  0 < chunkSize (session w) → store_holds doc w → window_of k w →
  0 <= i →
  i / chunkSize (session w) = k ∨ i / chunkSize (session w) = k + 1 →
  line_at (chunkSize (session w)) k (prevBuffer (session w))
    (buffer (session w)) (nextBuffer (session w)) i
  = document_line doc i.
Proof.
  intros Hcs (Htotal & Hcount & Hlines) (Hbuf & _ & Hnext) Hi Hq.
  unfold line_at, JS.floor_div, JS.remainder, JS.index_or_empty,
    document_line.
  rewrite Z.rem_mod_nonneg by lia.
  pose proof (Z.div_mod i (chunkSize (session w)) ltac:(lia)) as Hdm.
  pose proof (Z.mod_pos_bound i (chunkSize (session w)) Hcs) as Hj.
  pose proof (Z.div_pos i (chunkSize (session w)) Hi Hcs) as Hq0.
  pose proof (ceil_div_covers (JS.len doc) (chunkSize (session w)) Hcs)
    as Hcover.
  rewrite <- Hcount in Hcover.
  set (q := i / chunkSize (session w)) in *.
  set (j := i mod chunkSize (session w)) in *.
  assert (Hended : chunkCount w <= q → JS.index doc i = None).
  { intros Hge. apply index_out_of_bounds. right. nia. }
  assert (Hi' : i = q * chunkSize (session w) + j) by lia.
  destruct Hq as [Hq|Hq].
  - destruct (Z.eqb_spec q (k - 1)); [lia|]. cbn [andb].
    destruct (Z.eqb_spec q k); [|lia]. rewrite Hbuf.
    destruct (Z.lt_ge_cases k (chunkCount w)) as [Hin|Hout].
    + rewrite Hlines by lia. rewrite index_owned_range by lia.
      by rewrite Hi', Hq.
    + unfold chunk_lines.
      rewrite (index_out_of_bounds (chunks (session w)))
        by (right; unfold chunkCount in Hout; lia).
      rewrite Hended by lia.
      by rewrite (index_out_of_bounds (@nil string))
        by (right; unfold JS.len; cbn; lia).
  - destruct (Z.eqb_spec q (k - 1)); [lia|]. cbn [andb].
    destruct (Z.eqb_spec q k); [lia|].
    destruct (Z.eqb_spec q (k + 1)); [|lia]. cbn [andb].
    rewrite Hnext.
    destruct (Z.ltb_spec (k + 1) (chunkCount w)) as [Hin|Hout].
    + rewrite Hlines by lia.
      replace (JS.index doc i)
        with (JS.index (owned_range (chunkSize (session w)) doc (k + 1)) j)
        by (rewrite index_owned_range by lia; by rewrite Hi', Hq).
      destruct (Z.gtb_spec
                  (JS.len (owned_range (chunkSize (session w)) doc (k + 1)))
                  0) as [|Hempty]; [done|].
      rewrite (index_out_of_bounds (owned_range _ _ _)) by (right; lia).
      done.
    + change (JS.len [] >? 0) with false. cbn iota.
      by rewrite Hended by lia.
Qed.

Lemma resolve_document (P : Platform) (doc : list string) (w : World)
    (start size : Z) :
  0 < chunkSize (session w) → store_holds doc w →
  window_of (currentChunkIndex (session w)) w →
  currentChunkIndex (session w) = start / chunkSize (session w) →
  0 <= start → 0 <= size <= chunkSize (session w) →
  resolve start size w
  = (Return (document_line doc <$> seqZ start size),
     on_host (set_Viewport start size) w).
Proof.
  intros Hcs Hholds Hwin Hhit Hstart Hsize.
  rewrite resolve_hit by done. do 2 f_equal.
  apply list_fmap_ext. intros idx i Hlook.
  apply lookup_seqZ in Hlook as [-> Hidx]. rewrite <- Hhit.
  apply (line_at_document P); [done..|lia|].
  rewrite Hhit.
  pose proof (Z.div_le_mono start (start + Z.of_nat idx)
                (chunkSize (session w)) Hcs ltac:(lia)).
  pose proof (Z.div_le_mono (start + Z.of_nat idx)
                (start + 1 * chunkSize (session w))
                (chunkSize (session w)) Hcs ltac:(lia)) as Hup.
  rewrite Z.div_add in Hup by lia. lia.
Qed.

(** X5: with the store in step with the document and the window loaded
    for the chunk of the viewport's first line, [resolve] of a viewport
    that is no longer than a chunk shows the document: position [i] of
    the result is line [viewportStart + i], read from the current or the
    next buffer, and the empty string behind the last line.  The call is
    a cache hit: it changes nothing but the viewport. *)
Theorem resolve_shows_document (P : Platform) (doc : list string)
    (w : World) (start size : Z) :
  0 < chunkSize (session w) → store_holds doc w →
  window_of (currentChunkIndex (session w)) w →
  currentChunkIndex (session w) = start / chunkSize (session w) →
  0 <= start → 0 <= size <= chunkSize (session w) →
  resolve start size w
  = (Return (document_line doc <$> seqZ start size),
     on_host (set_Viewport start size) w).
Proof. apply resolve_document. Qed.

Lemma seven_lines_window : @window_of stored 0 seven_lines_world.
Proof. unfold window_of. split_and!; reflexivity. Defined.

Lemma resolve_shows_document_witness :
  0 < chunkSize (session seven_lines_world)
  ∧ @store_holds stored ["a"; "b"; "c"; "d"; "e"; "f"; "g"] seven_lines_world
  ∧ @window_of stored (currentChunkIndex (session seven_lines_world))
      seven_lines_world
  ∧ currentChunkIndex (session seven_lines_world)
    = 1 / chunkSize (session seven_lines_world)
  ∧ 0 <= 1
  ∧ 0 <= 2 <= chunkSize (session seven_lines_world)
  ∧ (resolve 1 2 seven_lines_world).1 = Return ["b"; "c"].
Proof.
  assert (H1 : 0 < chunkSize (session seven_lines_world))
    by (vm_compute; reflexivity).
  assert (H2 : currentChunkIndex (session seven_lines_world)
               = 1 / chunkSize (session seven_lines_world))
    by (vm_compute; reflexivity).
  assert (H3 : 0 <= 1) by lia.
  assert (H4 : 0 <= 2 <= chunkSize (session seven_lines_world))
    by (vm_compute; split; discriminate).
  split; [exact H1|]. split; [exact seven_lines_store_holds|].
  split; [exact seven_lines_window|]. split; [exact H2|].
  split; [exact H3|]. split; [exact H4|].
  rewrite (resolve_shows_document stored _ seven_lines_world 1 2
             H1 seven_lines_store_holds seven_lines_window H2 H3 H4).
  reflexivity.
Defined.

(** X16: the previous buffer is never shown.  With a positive chunk size,
    on a cache hit, the strings that [getChunkedLines] returns do not
    depend on [prevBuffer]: every line of the viewport lies in the chunk
    of its first line or behind it. *)
Theorem resolve_ignores_previous_buffer (w : World) (start size : Z)
    (other : list string) :
  0 < chunkSize (session w) →
  currentChunkIndex (session w) = start / chunkSize (session w) →
  (resolve start size (on_session (set_prevBuffer other) w)).1
  = (resolve start size w).1.
Proof.
  intros Hcs Hhit. rewrite !resolve_hit by done. cbn. f_equal.
  apply list_fmap_ext. intros idx i Hlook.
  apply lookup_seqZ in Hlook as [-> Hidx].
  unfold line_at, JS.floor_div.
  pose proof (Z.div_le_mono start (start + Z.of_nat idx)
                (chunkSize (session w)) Hcs ltac:(lia)).
  destruct (Z.eqb_spec ((start + Z.of_nat idx) / chunkSize (session w))
              (start / chunkSize (session w) - 1)); [lia|done].
Qed.

Lemma resolve_ignores_previous_buffer_witness :
  0 < chunkSize (session seven_lines_world)
  ∧ currentChunkIndex (session seven_lines_world)
    = 0 / chunkSize (session seven_lines_world)
  ∧ (resolve 0 1 (on_session (set_prevBuffer ["stale"]) seven_lines_world)).1
    = (resolve 0 1 seven_lines_world).1.
Proof.
  assert (H1 : 0 < chunkSize (session seven_lines_world))
    by (vm_compute; reflexivity).
  assert (H2 : currentChunkIndex (session seven_lines_world)
               = 0 / chunkSize (session seven_lines_world))
    by (vm_compute; reflexivity).
  split; [exact H1|]. split; [exact H2|].
  exact (resolve_ignores_previous_buffer seven_lines_world 0 1 ["stale"]
           H1 H2).
Defined.

(** ** Window manager: a reload from the miss to its end *)

Lemma store_holds_same_content (P : Platform) (doc : list string)
    (w w' : World) :
  same_content w w' → store_holds doc w → store_holds doc w'.
Proof.
  unfold same_content, store_holds, chunkCount, chunk_lines.
  intros (-> & -> & -> & _). done.
Qed.

(** A reload for a chunk of the store, run to its end: the window of that
    chunk, one render, and nothing else of the session. *)
Lemma run_reload_loads (P : Platform) (k : Z) (w : World) :
  0 <= k < chunkCount w →
  ∃ w',
    run_reload 3 (AwaitCurrent k (JS.index (chunks (session w)) k)) w
    = (Return (), w')
    ∧ same_content w w'
    ∧ currentChunkIndex (session w') = currentChunkIndex (session w)
    ∧ reloads w' = reloads w
    ∧ window_of k w'
    ∧ host w' = count_render (host w).
Proof.
  intros Hk. destruct w as [s h rs]. unfold chunkCount in Hk. cbn in Hk.
  destruct (index_in_bounds (chunks s) k Hk) as [b Hb].
  unfold window_of, chunk_lines, chunkCount, same_content.
  unfold run_reload, resume, loadChunks_previous, loadChunks_next,
    decompressChunk_call, decompressChunk_settle.
  run. rewrite Hb. cbn.
  destruct ((k - 1 >=? 0) && (k - 1 <? JS.len (chunks s))) eqn:Hprev; cbn.
  - pose proof Hprev as [Hp1%Z.geb_le Hp2%Z.ltb_lt]%andb_true_iff.
    destruct (index_in_bounds (chunks s) (k - 1) ltac:(lia)) as [bp Hbp].
    rewrite Hbp. cbn.
    destruct (k + 1 <? JS.len (chunks s)) eqn:Hnext; cbn.
    + pose proof Hnext as Hn%Z.ltb_lt.
      destruct (index_in_bounds (chunks s) (k + 1) ltac:(lia)) as [bn Hbn].
      rewrite Hbn. cbn. eexists. split; [reflexivity|]. cbn.
      rewrite Hb, Hbp, Hbn, Hprev, Hnext. by split_and!.
    + eexists. split; [reflexivity|]. cbn.
      rewrite Hb, Hbp, Hprev, Hnext. by split_and!.
  - destruct (k + 1 <? JS.len (chunks s)) eqn:Hnext; cbn.
    + pose proof Hnext as Hn%Z.ltb_lt.
      destruct (index_in_bounds (chunks s) (k + 1) ltac:(lia)) as [bn Hbn].
      rewrite Hbn. cbn. eexists. split; [reflexivity|]. cbn.
      rewrite Hb, Hbn, Hprev, Hnext. by split_and!.
    + eexists. split; [reflexivity|]. cbn.
      rewrite Hb, Hprev, Hnext. by split_and!.
Qed.

Lemma miss_then_reload (P : Platform) (w : World) (start size : Z) :
  reloads w = [] → 0 <= size →
  currentChunkIndex (session w) ≠ start / chunkSize (session w) →
  0 <= start / chunkSize (session w) < chunkCount w →
  ∃ w',
    (resolve start size;; finish 0) w = (Return (), w')
    ∧ currentChunkIndex (session w') = start / chunkSize (session w)
    ∧ window_of (start / chunkSize (session w)) w'
    ∧ reloads w' = []
    ∧ same_content w w'
    ∧ host w' = count_render (set_Viewport start size (host w)).
Proof.
  intros Hnone Hsize Hmiss Hk.
  erewrite bind_run by (by apply resolve_miss).
  destruct w as [s h rs]. cbn in *. subst rs.
  set (k := start / chunkSize s) in *.
  unfold finish. cbn -[run_reload].
  match goal with |- context [run_reload 3 _ ?w1] =>
    destruct (run_reload_loads P k w1)
      as (w' & Hrun & Hsame & Hcur & Hrel & Hwin & Hhost); [done|]
  end.
  cbn -[run_reload] in Hrun. rewrite Hrun. exists w'.
  cbn in Hsame, Hcur, Hrel, Hhost. by split_and!.
Qed.

(** X4: a cache miss on a chunk of the store, followed by its reload run
    to the end with no other reload in flight, leaves the window of that
    chunk: [buffer] holds its lines, [prevBuffer] and [nextBuffer] those
    of its neighbours, or nothing where the store has no neighbour; the
    current chunk index is that chunk, the viewer was asked to render
    once, and the store and its counters are untouched. *)
Theorem reload_loads_window (P : Platform) (w : World) (start size : Z) :
  0 < chunkSize (session w) →
  reloads w = [] → 0 <= size →
  currentChunkIndex (session w) ≠ start / chunkSize (session w) →
  0 <= start / chunkSize (session w) < chunkCount w →
  ∃ w',
    (resolve start size;; finish 0) w = (Return (), w')
    ∧ currentChunkIndex (session w') = start / chunkSize (session w)
    ∧ window_of (start / chunkSize (session w)) w'
    ∧ reloads w' = []
    ∧ same_content w w'
    ∧ host w' = count_render (set_Viewport start size (host w)).
Proof. intros _. apply miss_then_reload. Qed.

Lemma reload_loads_window_witness :
  0 < chunkSize (session seven_lines_world)
  ∧ reloads seven_lines_world = []
  ∧ 0 <= 1
  ∧ currentChunkIndex (session seven_lines_world)
    ≠ 5 / chunkSize (session seven_lines_world)
  ∧ 0 <= 5 / chunkSize (session seven_lines_world)
      < chunkCount seven_lines_world
  ∧ ∃ w',
      (resolve 5 1;; @finish stored 0) seven_lines_world = (Return (), w')
      ∧ currentChunkIndex (session w')
        = 5 / chunkSize (session seven_lines_world)
      ∧ @window_of stored (5 / chunkSize (session seven_lines_world)) w'.
Proof.
  assert (H1 : reloads seven_lines_world = []) by reflexivity.
  assert (H2 : 0 <= 1) by lia.
  assert (H3 : currentChunkIndex (session seven_lines_world)
               ≠ 5 / chunkSize (session seven_lines_world))
    by (vm_compute; discriminate).
  assert (H4 : 0 <= 5 / chunkSize (session seven_lines_world)
               < chunkCount seven_lines_world)
    by (vm_compute; split; [discriminate|reflexivity]).
  assert (H0 : 0 < chunkSize (session seven_lines_world))
    by (vm_compute; reflexivity).
  split; [exact H0|].
  split; [exact H1|]. split; [exact H2|]. split; [exact H3|].
  split; [exact H4|].
  destruct (reload_loads_window stored seven_lines_world 5 1 H0 H1 H2 H3 H4)
    as (w' & Hrun & Hcur & Hwin & _).
  exists w'. split; [exact Hrun|]. split; [exact Hcur|exact Hwin].
Defined.

(** X6: scrolling shows the document.  With the store in step with the
    document and no reload in flight, a viewport no longer than a chunk
    that starts in another chunk of the store first gets placeholders;
    once the reload has run to its end, the repaint shows the lines of
    the document at the viewport's positions, and the empty string behind
    the last line. *)
Theorem scroll_then_repaint_shows_document (P : Platform)
    (doc : list string) (w : World) (start size : Z) :
  0 < chunkSize (session w) → store_holds doc w →
  reloads w = [] →
  0 <= start → 0 <= size <= chunkSize (session w) →
  currentChunkIndex (session w) ≠ start / chunkSize (session w) →
  start / chunkSize (session w) < chunkCount w →
  ∃ w',
    (resolve start size;; finish 0;; resolve start size) w
    = (Return (document_line doc <$> seqZ start size), w')
    ∧ (resolve start size w).1 = Return (JS.fill size "...").
Proof.
  intros Hcs Hholds Hnone Hstart Hsize Hmiss Hk.
  assert (Hk0 : 0 <= start / chunkSize (session w))
    by (apply Z.div_pos; lia).
  destruct (miss_then_reload P w start size)
    as (w1 & Hrun & Hcur & Hwin & _ & Hsame & _); [done|lia|done|lia|].
  pose proof Hsame as (_ & _ & Hcs1 & _).
  erewrite bind_run in Hrun by (apply resolve_miss; (done || lia)).
  erewrite bind_run by (apply resolve_miss; (done || lia)).
  erewrite bind_run by exact Hrun.
  eexists. split.
  - apply (resolve_document P doc w1 start size).
    + lia.
    + by apply (store_holds_same_content P doc w).
    + by rewrite Hcur.
    + by rewrite Hcur, Hcs1.
    + done.
    + lia.
  - by rewrite resolve_miss by (done || lia).
Qed.

Lemma scroll_then_repaint_shows_document_witness :
  0 < chunkSize (session seven_lines_world)
  ∧ @store_holds stored ["a"; "b"; "c"; "d"; "e"; "f"; "g"] seven_lines_world
  ∧ reloads seven_lines_world = []
  ∧ 0 <= 6
  ∧ 0 <= 2 <= chunkSize (session seven_lines_world)
  ∧ currentChunkIndex (session seven_lines_world)
    ≠ 6 / chunkSize (session seven_lines_world)
  ∧ 6 / chunkSize (session seven_lines_world) < chunkCount seven_lines_world
  ∧ ((resolve 6 2;; @finish stored 0;; resolve 6 2) seven_lines_world).1
    = Return ["g"; ""].
Proof.
  assert (H1 : 0 < chunkSize (session seven_lines_world))
    by (vm_compute; reflexivity).
  assert (H2 : reloads seven_lines_world = []) by reflexivity.
  assert (H3 : 0 <= 6) by lia.
  assert (H4 : 0 <= 2 <= chunkSize (session seven_lines_world))
    by (vm_compute; split; discriminate).
  assert (H5 : currentChunkIndex (session seven_lines_world)
               ≠ 6 / chunkSize (session seven_lines_world))
    by (vm_compute; discriminate).
  assert (H6 : 6 / chunkSize (session seven_lines_world)
               < chunkCount seven_lines_world)
    by (vm_compute; reflexivity).
  split; [exact H1|]. split; [exact seven_lines_store_holds|].
  split; [exact H2|]. split; [exact H3|]. split; [exact H4|].
  split; [exact H5|]. split; [exact H6|].
  destruct (scroll_then_repaint_shows_document stored _ seven_lines_world
              6 2 H1 seven_lines_store_holds H2 H3 H4 H5 H6)
    as (w' & Hrun & _).
  rewrite Hrun. reflexivity.
Defined.

(** X7: a cache miss on a chunk that the store does not have starts a
    reload that rejects at its first step.  With no other reload in
    flight, after the miss and that step the session is as before the
    miss except for the current chunk index, which is now the missing
    chunk: the three buffers keep what they held, no render is asked
    for, and no reload is left. *)
Theorem reload_outside_store_changes_index_only (P : Platform) (w : World)
    (start size : Z) :
  0 < chunkSize (session w) →
  reloads w = [] → 0 <= size →
  currentChunkIndex (session w) ≠ start / chunkSize (session w) →
  start / chunkSize (session w) < 0
  ∨ chunkCount w <= start / chunkSize (session w) →
  (resolve start size;; land 0) w
  = (Return (),
     on_session (set_currentChunkIndex (start / chunkSize (session w)))
       (on_host (set_Viewport start size) w)).
Proof.
  intros _ Hnone Hsize Hmiss Hout.
  erewrite bind_run by (by apply resolve_miss).
  destruct w as [s h rs]. cbn in *. subst rs.
  unfold land. cbn.
  rewrite (index_out_of_bounds (chunks s)) by done.
  unfold decompressChunk_settle. run. done.
Qed.

Lemma reload_outside_store_changes_index_only_witness :
  0 < chunkSize (session seven_lines_world)
  ∧ reloads seven_lines_world = []
  ∧ 0 <= 1
  ∧ currentChunkIndex (session seven_lines_world)
    ≠ 20 / chunkSize (session seven_lines_world)
  ∧ (20 / chunkSize (session seven_lines_world) < 0
     ∨ chunkCount seven_lines_world
       <= 20 / chunkSize (session seven_lines_world))
  ∧ buffer (session ((resolve 20 1;; @land stored 0) seven_lines_world).2)
    = ["a"; "b"]
  ∧ currentChunkIndex
      (session ((resolve 20 1;; @land stored 0) seven_lines_world).2)
    = 10.
Proof.
  assert (H1 : reloads seven_lines_world = []) by reflexivity.
  assert (H2 : 0 <= 1) by lia.
  assert (H3 : currentChunkIndex (session seven_lines_world)
               ≠ 20 / chunkSize (session seven_lines_world))
    by (vm_compute; discriminate).
  assert (H4 : 20 / chunkSize (session seven_lines_world) < 0
               ∨ chunkCount seven_lines_world
                 <= 20 / chunkSize (session seven_lines_world))
    by (right; vm_compute; discriminate).
  assert (H0 : 0 < chunkSize (session seven_lines_world))
    by (vm_compute; reflexivity).
  split; [exact H0|].
  split; [exact H1|]. split; [exact H2|]. split; [exact H3|].
  split; [exact H4|].
  rewrite (reload_outside_store_changes_index_only stored
             seven_lines_world 20 1 H0 H1 H2 H3 H4).
  split; reflexivity.
Defined.

(** ** Reading never writes the store *)

Lemma resume_content (P : Platform) (r : Reload) (w : World) :
  same_content w (resume r w).2.
Proof.
  destruct w as [s h rs]. unfold same_content.
  destruct r as [k [b|]|k [b|]|k [b|]];
    unfold resume, loadChunks_previous, loadChunks_next,
      decompressChunk_call, decompressChunk_settle;
    run;
    repeat (case_match; cbn); done.
Qed.

Lemma resolve_content (w : World) (start size : Z) :
  same_content w (resolve start size w).2.
Proof.
  destruct w as [s h rs]. unfold same_content.
  unfold resolve, getChunkedLines, loadChunks, decompressChunk_call,
    placeholders.
  run. repeat (case_match; cbn); done.
Qed.

Lemma land_content (P : Platform) (k : nat) (w : World) :
  same_content w (land k w).2.
Proof.
  unfold land. destruct (reloads w !! k) as [r|]; [|by unfold same_content].
  pose proof (resume_content P r w) as Hsame.
  destruct (resume r w) as [[[r'|]| |] w']; by unfold same_content in *.
Qed.

(** X8: reading never writes the store.  A [resolve] call, hit or miss,
    and any step of any reload leave [chunks], [totalLines], [chunkSize]
    and [enabled] as they were, so the accessors [totalLines],
    [chunkCount], [compressedSize] and [enabled] answer the same before
    and after. *)
Theorem reading_never_writes_store (P : Platform) (w : World)
    (start size : Z) (k : nat) :
  same_content w (resolve start size w).2
  ∧ same_answers w (resolve start size w).2
  ∧ same_content w (land k w).2
  ∧ same_answers w (land k w).2.
Proof.
  assert (Hanswers : ∀ w', same_content w w' → same_answers w w').
  { intros w' (Hc & Ht & _ & He).
    unfold same_answers, get_totalLines, get_chunkCount,
      get_compressedSize, get_enabled.
    run. by rewrite Hc, Ht, He. }
  pose proof (resolve_content w start size).
  pose proof (land_content P k w).
  split_and!; auto.
Qed.

(** ** Lifecycle: what a reset leaves behind *)

Lemma run_reload_empty_store (P : Platform) (k : Z)
    (bytes : list Byte.byte) (w : World) :
  chunks (session w) = [] → 0 <= k →
  run_reload 3 (AwaitCurrent k (Some bytes)) w
  = (Return (),
     on_host count_render
       (on_session (set_nextBuffer [])
          (on_session (set_prevBuffer [])
             (on_session (set_buffer (decompress bytes)) w)))).
Proof.
  intros Hempty Hk. destruct w as [[] h rs]. cbn in Hempty. subst.
  assert (Hp : (k - 1 >=? 0) && (k - 1 <? 0) = false)
    by (destruct (Z.geb_spec (k - 1) 0), (Z.ltb_spec (k - 1) 0);
        try done; lia).
  assert (Hn : (k + 1 <? 0) = false) by (apply Z.ltb_ge; lia).
  unfold run_reload, resume, loadChunks_previous, loadChunks_next,
    decompressChunk_call, decompressChunk_settle.
  run. unfold JS.len. cbn. change (Z.of_nat 0) with 0. rewrite Hp. cbn.
  change (Z.of_nat 0) with 0. by rewrite Hn.
Qed.

Lemma getChunkedLines_miss (w : World) :
  currentChunkIndex (session w)
    ≠ Viewport_start (host w) / chunkSize (session w) →
  0 <= Viewport_size (host w) →
  getChunkedLines w
  = (Return (JS.fill (Viewport_size (host w)) "..."),
     on_reloads
       (λ rs, rs ++ [AwaitCurrent
                       (Viewport_start (host w) / chunkSize (session w))
                       (JS.index (chunks (session w))
                          (Viewport_start (host w) / chunkSize (session w)))])
       (on_session
          (set_currentChunkIndex
             (Viewport_start (host w) / chunkSize (session w))) w)).
Proof.
  intros Hmiss Hsize.
  unfold getChunkedLines, loadChunks, decompressChunk_call, placeholders,
    JS.floor_div.
  run.
  destruct (Z.eqb_spec (currentChunkIndex (session w))
              (Viewport_start (host w) / chunkSize (session w))); [done|].
  cbn. destruct (Z.ltb_spec (Viewport_size (host w)) 0); [lia|]. done.
Qed.

(** X12: [clear] does not cancel a reload in flight.  In an active
    session with one reload suspended on its first decompression, [clear]
    empties the store and the buffers and renders; the viewer's repaint
    misses and starts a reload for the viewport's chunk, which the empty
    store does not have.  When the old decompression settles it writes
    the lines of the discarded chunk (at least one line) into [buffer],
    finds no neighbour and renders; the repaint is now a cache hit, and
    after the new reload has rejected the window is on the viewport's
    chunk with the discarded lines in [buffer], which the viewer is shown
    at the offsets of its viewport, while [totalLines] is 0 and the store
    is empty. *)
Theorem reload_lands_after_clear (P : Platform) (w : World) (k : Z)
    (bytes : list Byte.byte) :
  reloads w = [AwaitCurrent k (Some bytes)] → 0 <= k →
  0 < chunkSize (session w) → Viewport_lines (host w) = Chunked →
  0 <= Viewport_start (host w) → 0 <= Viewport_size (host w) →
  ∃ w',
    (clear;; repaint;; finish 0;; repaint;; land 0) w = (Return (), w')
    ∧ buffer (session w') = decompress bytes
    ∧ buffer (session w') ≠ []
    ∧ prevBuffer (session w') = []
    ∧ nextBuffer (session w') = []
    ∧ totalLines (session w') = 0
    ∧ chunks (session w') = []
    ∧ currentChunkIndex (session w')
      = Viewport_start (host w) / chunkSize (session w)
    ∧ reloads w' = []
    ∧ (resolve (Viewport_start (host w)) (Viewport_size (host w)) w').1
      = Return (line_at (chunkSize (session w))
                  (Viewport_start (host w) / chunkSize (session w))
                  [] (decompress bytes) []
                <$> seqZ (Viewport_start (host w)) (Viewport_size (host w))).
Proof.
  intros Hrel Hk Hcs Hsrc Hstart Hsize.
  assert (Hv : 0 <= Viewport_start (host w) / chunkSize (session w))
    by (apply Z.div_pos; lia).
  set (v := Viewport_start (host w) / chunkSize (session w)) in *.
  (* clear *)
  assert (Hclear : ∃ w0,
            clear w = (Return (), w0)
            ∧ chunks (session w0) = []
            ∧ totalLines (session w0) = 0
            ∧ currentChunkIndex (session w0) = -1
            ∧ chunkSize (session w0) = chunkSize (session w)
            ∧ reloads w0 = reloads w
            ∧ Viewport_start (host w0) = Viewport_start (host w)
            ∧ Viewport_size (host w0) = Viewport_size (host w)
            ∧ Viewport_lines (host w0) = Viewport_lines (host w))
    by (unfold clear, discard; run; eexists; by split_and!).
  destruct Hclear as (w0 & Hclear & Hch0 & Ht0 & Hc0 & Hcs0 & Hrel0
                      & Hvs0 & Hvz0 & Hvl0).
  erewrite bind_run by exact Hclear.
  (* the repaint misses *)
  assert (Hpaint0 : repaint w0
            = (Return (),
               on_reloads (λ rs, rs ++ [AwaitCurrent v None])
                 (on_session (set_currentChunkIndex v) w0))).
  { unfold repaint.
    erewrite (bind_run (viewer Viewport_lines)) by reflexivity.
    unfold compose. rewrite Hvl0, Hsrc.
    erewrite bind_run
      by (apply getChunkedLines_miss; rewrite ?Hvs0, ?Hvz0, ?Hcs0, ?Hc0;
          fold v; lia).
    rewrite Hvs0, Hcs0, Hch0. fold v.
    by rewrite (index_out_of_bounds (@nil (list Byte.byte)))
      by (right; unfold JS.len; cbn; lia). }
  erewrite bind_run by exact Hpaint0.
  (* the old reload runs to its end *)
  set (w1 := on_reloads (delete 0%nat)
               (on_reloads (λ rs, rs ++ [AwaitCurrent v None])
                  (on_session (set_currentChunkIndex v) w0))).
  set (w2 := on_host count_render
               (on_session (set_nextBuffer [])
                  (on_session (set_prevBuffer [])
                     (on_session (set_buffer (decompress bytes)) w1)))).
  assert (Hfinish : finish 0
            (on_reloads (λ rs, rs ++ [AwaitCurrent v None])
               (on_session (set_currentChunkIndex v) w0))
            = (Return (), w2)).
  { unfold finish. cbn -[run_reload]. rewrite Hrel0, Hrel.
    cbn -[run_reload]. fold w1.
    by rewrite run_reload_empty_store by (subst w1; done). }
  erewrite bind_run by exact Hfinish.
  (* the repaint hits *)
  assert (Hpaint2 : repaint w2 = (Return (), w2)).
  { apply repaint_hit. subst w2 w1. cbn. by rewrite Hvs0, Hcs0. }
  erewrite bind_run by exact Hpaint2.
  (* the new reload rejects *)
  assert (Hrel2 : reloads w2 = [AwaitCurrent v None])
    by (subst w2 w1; cbn; by rewrite Hrel0, Hrel).
  exists (on_reloads (delete 0%nat) w2). split_and!.
  - unfold land. rewrite Hrel2. cbn.
    unfold decompressChunk_settle. run. done.
  - done.
  - apply decompress_nonempty.
  - done.
  - done.
  - done.
  - done.
  - done.
  - change (delete 0%nat (reloads w2) = []). by rewrite Hrel2.
  - rewrite resolve_hit by (subst w2 w1; cbn; by rewrite Hcs0).
    subst w2 w1. cbn. by rewrite Hcs0.
Qed.

Lemma reload_lands_after_clear_witness :
  reloads reloading_world
  = [AwaitCurrent 1 (Some (@compress stored ["c"; "d"]))]
  ∧ 0 <= 1
  ∧ 0 < chunkSize (session reloading_world)
  ∧ Viewport_lines (host reloading_world) = Chunked
  ∧ 0 <= Viewport_start (host reloading_world)
  ∧ 0 <= Viewport_size (host reloading_world)
  ∧ ∃ w',
      (clear;; repaint;; @finish stored 0;; repaint;; @land stored 0)
        reloading_world
      = (Return (), w')
      ∧ buffer (session w') = ["c"; "d"]
      ∧ totalLines (session w') = 0
      ∧ (resolve 2 1 w').1 = Return ["c"].
Proof.
  assert (H1 : reloads reloading_world
               = [AwaitCurrent 1 (Some (@compress stored ["c"; "d"]))])
    by reflexivity.
  assert (H2 : 0 <= 1) by lia.
  assert (H3 : 0 < chunkSize (session reloading_world))
    by (vm_compute; reflexivity).
  assert (H4 : Viewport_lines (host reloading_world) = Chunked)
    by reflexivity.
  assert (H5 : 0 <= Viewport_start (host reloading_world))
    by (vm_compute; discriminate).
  assert (H6 : 0 <= Viewport_size (host reloading_world))
    by (vm_compute; discriminate).
  split; [exact H1|]. split; [exact H2|]. split; [exact H3|].
  split; [exact H4|]. split; [exact H5|]. split; [exact H6|].
  destruct (reload_lands_after_clear stored reloading_world 1 _
              H1 H2 H3 H4 H5 H6)
    as (w' & Hrun & Hbuffer & _ & _ & _ & Htotal & _ & _ & _ & Hshown).
  exists w'. split; [exact Hrun|]. split; [rewrite Hbuffer; reflexivity|].
  split; [exact Htotal|]. exact Hshown.
Defined.

(** X11: after [clear], a first batch that fits one chunk is not
    stored when the viewer looks at the top of the document.  In an
    active session whose viewport starts in chunk 0, [clear] renders, the
    viewer's repaint misses and makes chunk 0 the current chunk, and the
    batch appended next goes to [buffer] only: [totalLines] counts its
    lines, the store stays empty, and the reload started by the repaint
    is the only one added. *)
Theorem first_batch_after_clear_not_stored (P : Platform) (w : World)
    (lines : list string) (skipRender : bool) :
  enabled (session w) = true →
  0 < chunkSize (session w) →
  Viewport_lines (host w) = Chunked →
  0 <= Viewport_start (host w) < chunkSize (session w) →
  0 <= Viewport_size (host w) →
  JS.len lines <= chunkSize (session w) →
  ∃ w',
    (clear;; repaint;; appendLines lines skipRender) w = (Return (), w')
    ∧ chunks (session w') = []
    ∧ buffer (session w') = lines
    ∧ totalLines (session w') = JS.len lines
    ∧ currentChunkIndex (session w') = 0
    ∧ reloads w' = reloads w ++ [AwaitCurrent 0 None].
Proof.
  destruct w as [[en ch cs tl bf ci pv nx] [vs vz ml em li vl ma rn] rs].
  cbn. intros -> Hcs -> Hstart Hsize Hlen.
  unfold clear, discard, repaint, getChunkedLines, loadChunks,
    decompressChunk_call, placeholders, appendLines, appendChunkedLines,
    JS.floor_div, JS.remainder.
  run.
  rewrite (Z.div_small vs cs) by lia. cbn.
  destruct (Z.ltb_spec vz 0); [lia|]. cbn.
  rewrite Z.rem_0_l by lia.
  rewrite Z.div_0_l by lia. cbn.
  rewrite Z.sub_0_r, slice_0_all, slice_from_all by done. cbn.
  destruct skipRender; cbn; eexists; (split; [reflexivity|]); cbn;
    by rewrite ?Z.add_0_l.
Qed.

Lemma first_batch_after_clear_not_stored_witness :
  enabled (session seven_lines_world) = true
  ∧ 0 < chunkSize (session seven_lines_world)
  ∧ Viewport_lines (host seven_lines_world) = Chunked
  ∧ 0 <= Viewport_start (host seven_lines_world)
      < chunkSize (session seven_lines_world)
  ∧ 0 <= Viewport_size (host seven_lines_world)
  ∧ JS.len ["x"; "y"] <= chunkSize (session seven_lines_world)
  ∧ ∃ w',
      (clear;; repaint;; @appendLines stored ["x"; "y"] false)
        seven_lines_world
      = (Return (), w')
      ∧ chunks (session w') = []
      ∧ buffer (session w') = ["x"; "y"]
      ∧ totalLines (session w') = 2.
Proof.
  assert (H1 : enabled (session seven_lines_world) = true) by reflexivity.
  assert (H2 : 0 < chunkSize (session seven_lines_world))
    by (vm_compute; reflexivity).
  assert (H3 : Viewport_lines (host seven_lines_world) = Chunked)
    by reflexivity.
  assert (H4 : 0 <= Viewport_start (host seven_lines_world)
               < chunkSize (session seven_lines_world))
    by (vm_compute; split; [discriminate|reflexivity]).
  assert (H5 : 0 <= Viewport_size (host seven_lines_world))
    by (vm_compute; discriminate).
  assert (H6 : JS.len ["x"; "y"] <= chunkSize (session seven_lines_world))
    by (vm_compute; discriminate).
  split; [exact H1|]. split; [exact H2|]. split; [exact H3|].
  split; [exact H4|]. split; [exact H5|]. split; [exact H6|].
  destruct (first_batch_after_clear_not_stored stored seven_lines_world
              ["x"; "y"] false H1 H2 H3 H4 H5 H6)
    as (w' & Hrun & Hchunks & Hbuffer & Htotal & _).
  exists w'. split; [exact Hrun|]. split; [exact Hchunks|].
  split; [exact Hbuffer|]. exact Htotal.
Defined.

(** X13: [deactivate] ends the session from any state: an [appendLines]
    that follows is refused with the "not activated" error, the store
    and the three buffers are empty, the counters are reset, and the
    viewer is back in write mode with its own line sources.  The chunk
    size, the viewer's [Model.lines] (emptied by [activate]) and the
    reloads in flight are left as they were. *)
Theorem deactivate_ends_session (P : Platform) (lines : list string)
    (skipRender : bool) (w : World) :
  ∃ w',
    (deactivate;; appendLines lines skipRender) w = (Throw NotActivated, w')
    ∧ chunks (session w') = []
    ∧ totalLines (session w') = 0
    ∧ buffer (session w') = []
    ∧ prevBuffer (session w') = []
    ∧ nextBuffer (session w') = []
    ∧ currentChunkIndex (session w') = -1
    ∧ editMode (host w') = write
    ∧ Model_lastIndex (host w') = Normal
    ∧ Viewport_lines (host w') = Normal
    ∧ Model_appendLines (host w') = Normal
    ∧ chunkSize (session w') = chunkSize (session w)
    ∧ Model_lines (host w') = Model_lines (host w)
    ∧ reloads w' = reloads w.
Proof.
  destruct w as [s h rs]. unfold deactivate, discard, appendLines.
  run. eexists. split; [reflexivity|]. cbn. by split_and!.
Qed.

(** ** Ingestion: the chunks that are full *)

(** The loop writes at the chunk it was started on and behind it. *)
Lemma append_loop_keeps_prefix (P : Platform) (fuel : nat) :
  ∀ (k pos : Z) (rem : list string) (w : World),
    ∃ o w',
      append_loop fuel k pos rem w = (o, w')
      ∧ chunkCount w <= chunkCount w'
      ∧ ∀ i, i < k → i < chunkCount w →
             JS.index (chunks (session w')) i = JS.index (chunks (session w)) i.
Proof.
  induction fuel as [|fuel IH]; intros k pos rem w.
  { cbn. destruct (JS.len rem =? 0); do 2 eexists;
      (split; [reflexivity|split; [lia|done]]). }
  cbn [append_loop]. destruct (JS.len rem =? 0).
  { do 2 eexists. split; [reflexivity|split; [lia|done]]. }
  erewrite (bind_run (read chunkSize)) by reflexivity. cbn beta.
  unfold compose.
  destruct (chunkLines_of_world P k w) as [o Ho].
  assert (Hwrite : ∀ (lines : list string) (total : Z),
    ∃ w1,
      compressChunk k lines (on_session (set_totalLines total) w)
      = (Return (), w1)
      ∧ chunkCount w <= chunkCount w1
      ∧ ∀ i, i < k → i < chunkCount w →
             JS.index (chunks (session w1)) i
             = JS.index (chunks (session w)) i).
  { intros lines total. rewrite compressChunk_spec. eexists.
    split; [reflexivity|]. destruct w as [s h rs].
    unfold chunkCount. cbn.
    destruct (Z.ltb_spec k (JS.len (chunks s))).
    - rewrite len_store_at. split; [lia|]. intros i Hi _.
      apply index_store_at_ne. lia.
    - rewrite len_app. unfold JS.len at 3. cbn. split; [lia|].
      intros i _ Hi. by apply index_push_lt. }
  destruct (JS.len rem <=? chunkSize (session w) - pos).
  - unfold mbind, M_bind at 1. rewrite Ho.
    destruct o as [chunkLines| |];
      [|do 2 eexists; (split; [reflexivity|split; [lia|done]])..].
    cbn beta zeta.
    erewrite (bind_run (read totalLines)) by reflexivity.
    erewrite (bind_run (assign _)) by reflexivity.
    unfold compose.
    destruct (Hwrite (chunkLines ++ rem)
                (totalLines (session w) + JS.len rem))
      as (w1 & Hw1 & Hcount & Hsame).
    rewrite Hw1. by exists (Return ()), w1.
  - unfold mbind, M_bind at 1. rewrite Ho.
    destruct o as [chunkLines| |];
      [|do 2 eexists; (split; [reflexivity|split; [lia|done]])..].
    cbn beta zeta.
    erewrite (bind_run (read totalLines)) by reflexivity.
    erewrite (bind_run (assign _)) by reflexivity.
    unfold compose.
    destruct (Hwrite
                (chunkLines ++ JS.slice rem 0 (chunkSize (session w) - pos))
                (totalLines (session w)
                 + JS.len (JS.slice rem 0 (chunkSize (session w) - pos))))
      as (w1 & Hw1 & Hcount & Hsame).
    erewrite bind_run by exact Hw1.
    match goal with |- context [append_loop fuel ?k1 ?p1 ?r1 w1] =>
      destruct (IH k1 p1 r1 w1) as (o' & w' & -> & Hcount' & Hsame')
    end.
    exists o', w'. split; [done|]. split; [lia|].
    intros i Hi Hin. rewrite Hsame' by lia. by apply Hsame.
Qed.

(** X17: an append never rewrites a chunk below the one that is open for
    writing, and never removes a chunk: every chunk of the store whose
    index is below [floor(totalLines / chunkSize)] holds the same bytes
    after [appendChunkedLines], whatever its outcome, and the chunk count
    does not go down. *)
Theorem append_keeps_full_chunks (P : Platform) (newLines : list string)
    (skipRender : bool) (w : World) (i : Z) :
  0 < chunkSize (session w) →
  i < totalLines (session w) / chunkSize (session w) →
  i < chunkCount w →
  JS.index (chunks (session (appendChunkedLines newLines skipRender w).2)) i
  = JS.index (chunks (session w)) i
  ∧ chunkCount w <= chunkCount (appendChunkedLines newLines skipRender w).2.
Proof.
  intros _ Hi Hin. unfold appendChunkedLines, JS.floor_div, JS.remainder.
  erewrite (bind_run (read totalLines)) by reflexivity.
  erewrite (bind_run (read chunkSize)) by reflexivity.
  erewrite (bind_run (read currentChunkIndex)) by reflexivity.
  unfold compose. cbn beta zeta.
  destruct (totalLines (session w) / chunkSize (session w)
            =? currentChunkIndex (session w)).
  - erewrite (bind_run (read buffer ≫= _)) by reflexivity.
    cbn beta iota zeta. unfold compose.
    match goal with |- context [(append_loop ?f ?k ?pos ?rem ≫= _) ?w1] =>
      destruct (append_loop_keeps_prefix P f k pos rem w1)
        as (o & w2 & Hloop & Hcount & Hsame)
    end.
    unfold mbind, M_bind. rewrite Hloop.
    specialize (Hsame i ltac:(lia) Hin). unfold chunkCount in *.
    cbn in Hsame, Hcount.
    destruct o as [[]| |], skipRender; cbn; by split.
  - erewrite (bind_run (mret _)) by reflexivity. cbn beta iota zeta.
    match goal with |- context [(append_loop ?f ?k ?pos ?rem ≫= _) ?w1] =>
      destruct (append_loop_keeps_prefix P f k pos rem w1)
        as (o & w2 & Hloop & Hcount & Hsame)
    end.
    unfold mbind, M_bind. rewrite Hloop.
    specialize (Hsame i Hi Hin). unfold chunkCount in *.
    destruct o as [[]| |], skipRender; cbn; by split.
Qed.

Lemma append_keeps_full_chunks_witness :
  0 < chunkSize (session seven_lines_world)
  ∧ 1 < totalLines (session seven_lines_world)
      / chunkSize (session seven_lines_world)
  ∧ 1 < chunkCount seven_lines_world
  ∧ JS.index
      (chunks (session
         (@appendChunkedLines stored ["h"; "i"; "j"] true
            seven_lines_world).2)) 1
    = JS.index (chunks (session seven_lines_world)) 1.
Proof.
  assert (H1 : 1 < totalLines (session seven_lines_world)
                   / chunkSize (session seven_lines_world))
    by (vm_compute; reflexivity).
  assert (H2 : 1 < chunkCount seven_lines_world)
    by (vm_compute; reflexivity).
  assert (H0 : 0 < chunkSize (session seven_lines_world))
    by (vm_compute; reflexivity).
  split; [exact H0|]. split; [exact H1|]. split; [exact H2|].
  exact (proj1 (append_keeps_full_chunks stored ["h"; "i"; "j"] true
                  seven_lines_world 1 H0 H1 H2)).
Defined.
